(** * spa-meta: the CloudFront distributions of the two CDK stacks

    The repository declares two CloudFront distributions in front of an S3
    bucket that holds a single-page application:

    - [StaticSite] (dynamic-rendering/infra/lib/dynamic-rendering-stack.ts),
      with a viewer-request and an origin-request Lambda@Edge function and a
      cache policy keyed on the header [x-need-dynamic-render];
    - [GlobalStack], with an origin-request function only, a custom error
      response for status 403, and the site's [index.html] handed to the
      function's bundle as a compile-time constant.

    The constructs are embedded as records holding exactly the properties
    the TypeScript sets; a property the source leaves out is [None] and is
    resolved to the construct library's documented default.  On top of the
    records stands a model of what a distribution so configured does with
    a request: method gate, viewer-request trigger, cache key,
    origin-request trigger, custom error responses.  The two Lambda
    handlers themselves (lambda/viewer-request/index.ts,
    lambda/origin-request/index.ts) are not among the sources; where a
    statement needs them they are section variables, or definitions marked
    as modelled from the specification. *)

From Stdlib Require Import ZArith NArith Ascii String List Bool Lia.
From stdpp Require Import base option list strings gmap.

Local Open Scope string_scope.

(** ** Construct properties, as the stacks set them *)

Module Duration.
Record t := { toSeconds : Z }.
Definition seconds (n : Z) : t := {| toSeconds := n |}.
Definition minutes (n : Z) : t := {| toSeconds := 60 * n |}.
End Duration.

Module AllowedMethods.
Inductive t := ALLOW_GET_HEAD | ALLOW_GET_HEAD_OPTIONS | ALLOW_ALL.
End AllowedMethods.

Module CachedMethods.
Inductive t := CACHE_GET_HEAD | CACHE_GET_HEAD_OPTIONS.
End CachedMethods.

Module LambdaEdgeEventType.
Inductive t := ORIGIN_REQUEST | ORIGIN_RESPONSE | VIEWER_REQUEST | VIEWER_RESPONSE.
#[global] Instance eq_dec : EqDecision t.
Proof. solve_decision. Defined.
End LambdaEdgeEventType.

Module ViewerProtocolPolicy.
Inductive t := HTTPS_ONLY | REDIRECT_TO_HTTPS | ALLOW_ALL.
End ViewerProtocolPolicy.

Module SecurityPolicyProtocol.
Inductive t := TLS_V1_2_2021.
End SecurityPolicyProtocol.

Module ResponseHeadersPolicy.
Inductive t := SECURITY_HEADERS.
End ResponseHeadersPolicy.

Module Runtime.
Inductive t := NODEJS_18_X.
End Runtime.

Module RetentionDays.
Inductive t := ONE_WEEK.
End RetentionDays.

(** [cloudfront.CacheHeaderBehavior]: [none()] or [allowList(...headers)]. *)
Module CacheHeaderBehavior.
Inductive t := none | allowList (headers : list string).
End CacheHeaderBehavior.

(** [cloudfront.CacheQueryStringBehavior] and [cloudfront.CacheCookieBehavior],
    which neither stack sets: both default to [none()].  Of the other
    behaviors only [all()] is kept. *)
Module CacheQueryStringBehavior.
Inductive t := none | all.
End CacheQueryStringBehavior.

Module CacheCookieBehavior.
Inductive t := none | all.
End CacheCookieBehavior.

(** [cloudfront.CachePolicyProps]. *)
Record CachePolicyProps := {
  enableAcceptEncodingBrotli : option bool;
  enableAcceptEncodingGzip : option bool;
  headerBehavior : option CacheHeaderBehavior.t;
  queryStringBehavior : option CacheQueryStringBehavior.t;
  cookieBehavior : option CacheCookieBehavior.t
}.

(** [bundling.define] of a [NodejsFunction]: identifier to the text of the
    JavaScript expression that replaces it in the bundle.  A JavaScript
    string is a sequence of UTF-16 code units. *)
Definition JsString := list N.

Record BundlingOptions := {
  define : gmap string JsString
}.

(** [NodejsFunctionProps]. *)
Record NodejsFunctionProps := {
  entry : string;
  handler : string;
  runtime : Runtime.t;
  memorySize : option Z;
  timeout : option Duration.t;
  logRetention : option RetentionDays.t;
  bundling : option BundlingOptions
}.

(** [cloudfront.EdgeLambda]; [functionVersion] is the function construct
    whose [currentVersion] the source passes. *)
Record EdgeLambda := {
  eventType : LambdaEdgeEventType.t;
  functionVersion : NodejsFunctionProps
}.

(** [cloudfront.ErrorResponse]. *)
Record ErrorResponse := {
  httpStatus : Z;
  responseHttpStatus : option Z;
  responsePagePath : option string;
  ttl : option Duration.t
}.

(** [cloudfront.BehaviorOptions] (the origin is the site bucket in both
    stacks and is supplied to the model separately). *)
Record BehaviorOptions := {
  compress : option bool;
  allowedMethods : option AllowedMethods.t;
  cachedMethods : option CachedMethods.t;
  cachePolicy : option CachePolicyProps;
  viewerProtocolPolicy : option ViewerProtocolPolicy.t;
  responseHeadersPolicy : option ResponseHeadersPolicy.t;
  edgeLambdas : list EdgeLambda
}.

(** [cloudfront.DistributionProps]. *)
Record DistributionProps := {
  defaultRootObject : option string;
  domainNames : list string;
  minimumProtocolVersion : option SecurityPolicyProtocol.t;
  errorResponses : list ErrorResponse;
  defaultBehavior : BehaviorOptions
}.

(** The reserved request header of the dynamic-rendering stack. *)
Definition x_need_dynamic_render : string := "x-need-dynamic-render".

(** ** dynamic-rendering-stack.ts: [StaticSite] *)

Module StaticSite.

Record Props := {
  domainName : string;
  siteSubDomain : string
}.

Definition siteDomain (props : Props) : string :=
  siteSubDomain props ++ "." ++ domainName props.

Definition viewerRequestLambda : NodejsFunctionProps := {|
  entry := "../lambda/viewer-request/index.ts";
  handler := "handler";
  runtime := Runtime.NODEJS_18_X;
  memorySize := None;
  timeout := None;
  logRetention := Some RetentionDays.ONE_WEEK;
  bundling := None
|}.

Definition originRequestLambda : NodejsFunctionProps := {|
  entry := "../lambda/origin-request/index.ts";
  handler := "handler";
  runtime := Runtime.NODEJS_18_X;
  memorySize := Some 4096%Z;
  timeout := Some (Duration.seconds 30);
  logRetention := Some RetentionDays.ONE_WEEK;
  bundling := None
|}.

Definition CachePolicy : CachePolicyProps := {|
  enableAcceptEncodingBrotli := Some true;
  enableAcceptEncodingGzip := Some true;
  headerBehavior := Some (CacheHeaderBehavior.allowList [x_need_dynamic_render]);
  queryStringBehavior := None;
  cookieBehavior := None
|}.

Definition distribution (props : Props) : DistributionProps := {|
  defaultRootObject := Some "index.html";
  domainNames := [siteDomain props];
  minimumProtocolVersion := Some SecurityPolicyProtocol.TLS_V1_2_2021;
  errorResponses := [];
  defaultBehavior := {|
    compress := Some true;
    allowedMethods := Some AllowedMethods.ALLOW_GET_HEAD_OPTIONS;
    cachedMethods := None;
    cachePolicy := Some CachePolicy;
    viewerProtocolPolicy := Some ViewerProtocolPolicy.REDIRECT_TO_HTTPS;
    responseHeadersPolicy := Some ResponseHeadersPolicy.SECURITY_HEADERS;
    edgeLambdas := [
      {| eventType := LambdaEdgeEventType.VIEWER_REQUEST;
         functionVersion := viewerRequestLambda |};
      {| eventType := LambdaEdgeEventType.ORIGIN_REQUEST;
         functionVersion := originRequestLambda |}
    ]
  |}
|}.

End StaticSite.

(** ** [JSON.stringify] of a string, and how the bundle reads it back *)

Local Open Scope N_scope.

Definition isLeadingSurrogate (c : N) : bool := (0xD800 <=? c) && (c <=? 0xDBFF).
Definition isTrailingSurrogate (c : N) : bool := (0xDC00 <=? c) && (c <=? 0xDFFF).
Definition isSurrogate (c : N) : bool := (0xD800 <=? c) && (c <=? 0xDFFF).

(** One lowercase hexadecimal digit, as a code unit. *)
Definition hexDigit (d : N) : N := if d <? 10 then 48 + d else 87 + d.

(** [UnicodeEscape]: a backslash, [u], and four hexadecimal digits. *)
Definition UnicodeEscape (c : N) : JsString :=
  [92; 117; hexDigit (c / 4096 mod 16); hexDigit (c / 256 mod 16);
   hexDigit (c / 16 mod 16); hexDigit (c mod 16)].

(** What [QuoteJSONString] appends for one code point that is a single
    code unit: the two-character escapes of backspace, tab, line feed,
    form feed, carriage return, the double quote and the backslash; a
    unicode escape for the other controls and for a lone surrogate; the
    unit itself otherwise. *)
Definition quoteUnit (c : N) : JsString :=
  if c =? 8 then [92; 98]
  else if c =? 9 then [92; 116]
  else if c =? 10 then [92; 110]
  else if c =? 12 then [92; 102]
  else if c =? 13 then [92; 114]
  else if c =? 34 then [92; 34]
  else if c =? 92 then [92; 92]
  else if (c <? 32) || isSurrogate c then UnicodeEscape c
  else [c].

(** The code points of the value in order; a leading surrogate followed by
    a trailing one is one code point and is copied as its two units. *)
Fixpoint quoteUnits (value : JsString) : JsString :=
  match value with
  | [] => []
  | c :: rest =>
      match rest with
      | d :: rest' =>
          if isLeadingSurrogate c && isTrailingSurrogate d
          then c :: d :: quoteUnits rest'
          else (quoteUnit c ++ quoteUnits rest)%list
      | [] => quoteUnit c
      end
  end.

(** [JSON.stringify(value)] for a string [value]. *)
Definition JSON_stringify (value : JsString) : JsString :=
  (34 :: quoteUnits value ++ [34])%list.

Definition hexValue (h : N) : option N :=
  if (48 <=? h) && (h <=? 57) then Some (h - 48)
  else if (97 <=? h) && (h <=? 102) then Some (h - 87)
  else if (65 <=? h) && (h <=? 70) then Some (h - 55)
  else None.

Definition hex4Value (h3 h2 h1 h0 : N) : option N :=
  match hexValue h3, hexValue h2, hexValue h1, hexValue h0 with
  | Some a, Some b, Some c, Some d => Some (a * 4096 + b * 256 + c * 16 + d)
  | _, _, _, _ => None
  end.

(** The characters of a double-quoted string literal up to its closing
    quote, which must end the text: the value the bundler substitutes for a
    defined identifier whose replacement text is such a literal.  Only the
    escapes [JSON.stringify] writes are read; any other text is not a
    literal of this form. *)
Fixpoint stringCharacters (src : JsString) : option JsString :=
  match src with
  | [] => None
  | c :: rest =>
      if c =? 34 then (match rest with [] => Some [] | _ :: _ => None end)
      else if c =? 92 then
        match rest with
        | [] => None
        | e :: rest1 =>
            if e =? 98 then cons 8 <$> stringCharacters rest1
            else if e =? 116 then cons 9 <$> stringCharacters rest1
            else if e =? 110 then cons 10 <$> stringCharacters rest1
            else if e =? 102 then cons 12 <$> stringCharacters rest1
            else if e =? 114 then cons 13 <$> stringCharacters rest1
            else if e =? 34 then cons 34 <$> stringCharacters rest1
            else if e =? 92 then cons 92 <$> stringCharacters rest1
            else if e =? 117 then
              match rest1 with
              | h3 :: h2 :: h1 :: h0 :: rest2 =>
                  match hex4Value h3 h2 h1 h0 with
                  | Some v => cons v <$> stringCharacters rest2
                  | None => None
                  end
              | _ => None
              end
            else None
        end
      else if c <? 32 then None
      else cons c <$> stringCharacters rest
  end.

(** UTF-16 code units are below 2^16. *)
Definition codeUnits (s : JsString) : Prop := Forall (fun c => c < 65536) s.

Definition evalStringLiteral (src : JsString) : option JsString :=
  match src with
  | c :: rest => if c =? 34 then stringCharacters rest else None
  | [] => None
  end.

Local Close Scope N_scope.

(** A string written with one-byte characters, as code units. *)
Definition units (s : string) : JsString :=
  map (fun a => N_of_ascii a) (list_ascii_of_string s).

(** ** The second stack: [GlobalStack] *)

Module GlobalStack.

Record Props := {
  domainName : string;
  siteDomain : string
}.

(** The files the constructor can read while the app is synthesized, each
    decoded as UTF-8 text. *)
Definition FileSystem := gmap string JsString.

(** [readFileSync(path, "utf-8")]; it throws when the file is missing. *)
Definition readFileSync (fs : FileSystem) (path : string) : option JsString :=
  fs !! path.

Definition SITE_ROOT_INDEX_HTML_CONTENT : string := "__SITE_ROOT_INDEX_HTML_CONTENT".

Definition indexHtmlPath : string := "../front-app/dist/index.html".

Definition originRequestFunction (fs : FileSystem) : option NodejsFunctionProps :=
  content ← readFileSync fs indexHtmlPath;
  Some {|
    entry := "../lambda/origin-request/index.ts";
    handler := "handler";
    runtime := Runtime.NODEJS_18_X;
    memorySize := None;
    timeout := None;
    logRetention := Some RetentionDays.ONE_WEEK;
    bundling := Some {|
      define := {[ SITE_ROOT_INDEX_HTML_CONTENT := JSON_stringify content ]}
    |}
  |}.

Definition distribution (props : Props) (fn : NodejsFunctionProps) : DistributionProps := {|
  defaultRootObject := Some "index.html";
  domainNames := [siteDomain props];
  minimumProtocolVersion := Some SecurityPolicyProtocol.TLS_V1_2_2021;
  errorResponses := [
    {| httpStatus := 403;
       responseHttpStatus := Some 403%Z;
       responsePagePath := Some "/error.html";
       ttl := Some (Duration.minutes 30) |}
  ];
  defaultBehavior := {|
    compress := Some true;
    allowedMethods := Some AllowedMethods.ALLOW_GET_HEAD_OPTIONS;
    cachedMethods := None;
    cachePolicy := None;
    viewerProtocolPolicy := Some ViewerProtocolPolicy.REDIRECT_TO_HTTPS;
    responseHeadersPolicy := None;
    edgeLambdas := [
      {| eventType := LambdaEdgeEventType.ORIGIN_REQUEST;
         functionVersion := fn |}
    ]
  |}
|}.

(** What the constructor leaves behind: the function and the distribution. *)
Record t := {
  fn : NodejsFunctionProps;
  dist : DistributionProps
}.

(** [new GlobalStack(parent, name, props)], run against the files [fs]:
    the stack the constructor returns when it returns.  It cannot return
    without having read the index file; the other reasons it may throw for
    (the stack's name, the function's entry and lock file, the bundler) are
    not told apart here, so [Some] is used as a premise only. *)
Definition new (fs : FileSystem) (props : Props) : option t :=
  f ← originRequestFunction fs;
  Some {| fn := f; dist := distribution props f |}.

End GlobalStack.

(** The text the stack defines for an identifier. *)
Definition definedText (f : NodejsFunctionProps) (name : string) : option JsString :=
  b ← bundling f; define b !! name.

(** How a define's text gets from the construct to the bundler depends on
    the release of the construct library, which the sources do not pin:
    handed over as it is, or written into the bundler's command line as
    [--define:name=] followed by [JSON.stringify] of the text, the command
    line being run by [bash -c]. *)
Inductive Transport := Verbatim | ThroughShell.

Local Open Scope N_scope.

(** What [bash] makes of the inside of a double-quoted word, up to the
    closing quote, which must end the word.  A backslash before a dollar,
    a backquote, a double quote or a backslash is removed, one before a
    line feed is removed with it, any other backslash stays.  A dollar
    followed by a digit from 1 to 9 is a positional parameter, unset under
    [bash -c], and expands to nothing.  Every other dollar and every
    backquote starts an expansion whose result depends on the shell's
    environment: the word is then outside this model. *)
Fixpoint bashQuotedChars (w : JsString) : option JsString :=
  match w with
  | [] => None
  | c :: rest =>
      if c =? 34 then (match rest with [] => Some [] | _ :: _ => None end)
      else if c =? 92 then
        match rest with
        | [] => None
        | e :: rest1 =>
            if (e =? 36) || (e =? 96) || (e =? 34) || (e =? 92)
            then cons e <$> bashQuotedChars rest1
            else if e =? 10 then bashQuotedChars rest1
            else (fun t => c :: e :: t) <$> bashQuotedChars rest1
        end
      else if c =? 36 then
        match rest with
        | d :: rest1 =>
            if (49 <=? d) && (d <=? 57) then bashQuotedChars rest1 else None
        | [] => None
        end
      else if c =? 96 then None
      else cons c <$> bashQuotedChars rest
  end.

Definition bashDoubleQuoted (word : JsString) : option JsString :=
  match word with
  | c :: rest => if c =? 34 then bashQuotedChars rest else None
  | [] => None
  end.


Local Close Scope N_scope.

(** The replacement text the bundler is given for a define. *)
Definition bundlerText (t : Transport) (text : JsString) : option JsString :=
  match t with
  | Verbatim => Some text
  | ThroughShell => bashDoubleQuoted (JSON_stringify text)
  end.

(** The string an identifier evaluates to in the bundle, when the text the
    bundler was given for it is a string literal. *)
Definition definedString (t : Transport) (f : NodejsFunctionProps) (name : string)
    : option JsString :=
  text ← definedText f name;
  given ← bundlerText t text;
  evalStringLiteral given.

(** ** Requests, responses and the stages of a distribution *)

Inductive Method := GET | HEAD | OPTIONS | PUT | PATCH | POST | DELETE.

#[global] Instance Method_eq_dec : EqDecision Method.
Proof. solve_decision. Defined.

(** Header names are lower case, as the edge events present them. *)
Record Request := {
  method : Method;
  uri : string;
  querystring : string;
  headers : gmap string string
}.

Record Response := {
  status : Z;
  contentType : string;
  body : JsString
}.

#[global] Instance Response_eq_dec : EqDecision Response.
Proof. solve_decision. Defined.

Definition withHeaders (r : Request) (h : gmap string string) : Request :=
  {| method := method r; uri := uri r; querystring := querystring r; headers := h |}.

Definition setHeader (name value : string) (r : Request) : Request :=
  withHeaders r (<[name := value]> (headers r)).

(** *** The method gate *)

Definition methodsOf (a : AllowedMethods.t) : list Method :=
  match a with
  | AllowedMethods.ALLOW_GET_HEAD => [GET; HEAD]
  | AllowedMethods.ALLOW_GET_HEAD_OPTIONS => [GET; HEAD; OPTIONS]
  | AllowedMethods.ALLOW_ALL => [GET; HEAD; OPTIONS; PUT; PATCH; POST; DELETE]
  end.

Definition cachedOf (c : CachedMethods.t) : list Method :=
  match c with
  | CachedMethods.CACHE_GET_HEAD => [GET; HEAD]
  | CachedMethods.CACHE_GET_HEAD_OPTIONS => [GET; HEAD; OPTIONS]
  end.

(** A behavior that sets no [allowedMethods] allows GET and HEAD; one that
    sets no [cachedMethods] caches GET and HEAD. *)
Definition allowed (b : BehaviorOptions) : list Method :=
  methodsOf (default AllowedMethods.ALLOW_GET_HEAD (allowedMethods b)).

Definition cached (b : BehaviorOptions) : list Method :=
  cachedOf (default CachedMethods.CACHE_GET_HEAD (cachedMethods b)).

(** What the distribution does with a request by its method alone: refuse
    it, look it up in the cache, or pass it to the origin side uncached. *)
Inductive Disposition := Refused | ThroughCache | PastCache.

Definition dispatch (b : BehaviorOptions) (m : Method) : Disposition :=
  if bool_decide (m ∈ allowed b)
  then if bool_decide (m ∈ cached b) then ThroughCache else PastCache
  else Refused.

(** *** The cache key *)

Inductive ContentEncoding := br | gzip.

#[global] Instance ContentEncoding_eq_dec : EqDecision ContentEncoding.
Proof. solve_decision. Defined.

Record CacheKey := {
  keyPath : string;
  keyHeaders : list (string * option string);
  keyQueryString : option string;
  keyCookies : option (option string);
  keyEncoding : list ContentEncoding
}.

#[global] Instance CacheKey_eq_dec : EqDecision CacheKey.
Proof. solve_decision. Defined.

(** The managed policy a behavior without [cachePolicy] gets. *)
Definition CACHING_OPTIMIZED : CachePolicyProps := {|
  enableAcceptEncodingBrotli := Some true;
  enableAcceptEncodingGzip := Some true;
  headerBehavior := None;
  queryStringBehavior := None;
  cookieBehavior := None
|}.

Definition policyOf (b : BehaviorOptions) : CachePolicyProps :=
  default CACHING_OPTIMIZED (cachePolicy b).

Definition keyHeaderNames (p : CachePolicyProps) : list string :=
  match default CacheHeaderBehavior.none (headerBehavior p) with
  | CacheHeaderBehavior.none => []
  | CacheHeaderBehavior.allowList hs => hs
  end.

Definition encodingEnabled (p : CachePolicyProps) (e : ContentEncoding) : bool :=
  match e with
  | br => default false (enableAcceptEncodingBrotli p)
  | gzip => default false (enableAcceptEncodingGzip p)
  end.

(** The encodings of the key: those the policy enables and the viewer's
    [Accept-Encoding] offers.  How the header is read ([offers]) belongs to
    the distribution, not to the stacks, and stays a parameter. *)
Definition negotiated (offers : ContentEncoding -> option string -> bool)
    (p : CachePolicyProps) (r : Request) : list ContentEncoding :=
  filter (fun e => encodingEnabled p e && offers e (headers r !! "accept-encoding"))
         [br; gzip].

Definition cacheKey (offers : ContentEncoding -> option string -> bool)
    (p : CachePolicyProps) (r : Request) : CacheKey := {|
  keyPath := uri r;
  keyHeaders := map (fun h => (h, headers r !! h)) (keyHeaderNames p);
  keyQueryString :=
    match default CacheQueryStringBehavior.none (queryStringBehavior p) with
    | CacheQueryStringBehavior.none => None
    | CacheQueryStringBehavior.all => Some (querystring r)
    end;
  keyCookies :=
    match default CacheCookieBehavior.none (cookieBehavior p) with
    | CacheCookieBehavior.none => None
    | CacheCookieBehavior.all => Some (headers r !! "cookie")
    end;
  keyEncoding := negotiated offers p r
|}.

(** The cache: the entries stored so far, newest first. *)
Definition Cache := list (CacheKey * Response).

Definition cacheLookup (c : Cache) (k : CacheKey) : option Response :=
  snd <$> find (fun e => bool_decide (fst e = k)) c.

Definition cachePut (k : CacheKey) (resp : Response) (c : Cache) : Cache :=
  (k, resp) :: c.

(** *** The edge functions *)

(** A request-side handler returns the request, possibly changed, or
    answers with a response of its own. *)
Definition Handler := Request -> Request + Response.

Definition trigger (ev : LambdaEdgeEventType.t) (b : BehaviorOptions)
    : option NodejsFunctionProps :=
  functionVersion <$> find (fun l => bool_decide (eventType l = ev)) (edgeLambdas b).

(** The viewer-request stage receives the request as the viewer sent it. *)
Definition viewerRequestInput (b : BehaviorOptions) (r : Request) : Request := r.

Definition viewerRequestStage (code : NodejsFunctionProps -> Handler)
    (b : BehaviorOptions) (r : Request) : Request + Response :=
  match trigger LambdaEdgeEventType.VIEWER_REQUEST b with
  | Some f => code f (viewerRequestInput b r)
  | None => inl r
  end.

(** On a miss the origin side is sent what the cache key is made of and
    nothing else of the viewer's request, no origin request policy being
    set in either stack: the path, the query string only under a policy
    that keys on it, and of the headers those of the allow-list.  (The
    normalized [Accept-Encoding] and the headers the distribution adds
    itself are left out.) *)
Definition originFacing (p : CachePolicyProps) (r : Request) : Request := {|
  method := method r;
  uri := uri r;
  querystring :=
    match default CacheQueryStringBehavior.none (queryStringBehavior p) with
    | CacheQueryStringBehavior.none => ""
    | CacheQueryStringBehavior.all => querystring r
    end;
  headers := filter (fun kv => kv.1 ∈ keyHeaderNames p) (headers r)
|}.

Definition originRequestStage (code : NodejsFunctionProps -> Handler)
    (origin : Request -> Response) (b : BehaviorOptions) (r : Request) : Response :=
  match trigger LambdaEdgeEventType.ORIGIN_REQUEST b with
  | Some f =>
      match code f r with
      | inl r' => origin r'
      | inr resp => resp
      end
  | None => origin r
  end.

(** *** Custom error responses *)

(** The error page is fetched from the origin by its path; a fetch that
    does not succeed yields no page. *)
Definition fetchPage (origin : Request -> Response) (path : string) : option Response :=
  let resp := origin {| method := GET; uri := path; querystring := ""; headers := ∅ |} in
  if (status resp =? 200)%Z then Some resp else None.

Record Delivered := {
  response : Response;
  errorCachingMinTtl : option Duration.t
}.

(** An origin response whose status has a custom error response is replaced
    by the configured page and status when the page can be fetched, and is
    passed on as it is otherwise. *)
Definition customError (errs : list ErrorResponse) (origin : Request -> Response)
    (resp : Response) : Delivered :=
  match find (fun e => (httpStatus e =? status resp)%Z) errs with
  | None => {| response := resp; errorCachingMinTtl := None |}
  | Some e =>
      {| response :=
           match responsePagePath e ≫= fetchPage origin with
           | Some page =>
               {| status := default (status resp) (responseHttpStatus e);
                  contentType := contentType page;
                  body := body page |}
           | None => resp
           end;
         errorCachingMinTtl := ttl e |}
  end.

(** *** One request through the distribution *)

Inductive Served :=
  | MethodNotAllowed
  | Generated (resp : Response)
  | CacheHit (k : CacheKey) (resp : Response)
  | FromOrigin (sent : Request) (d : Delivered).

Definition serve (offers : ContentEncoding -> option string -> bool)
    (code : NodejsFunctionProps -> Handler) (origin : Request -> Response)
    (d : DistributionProps) (c : Cache) (r : Request) : Served * Cache :=
  let b := defaultBehavior d in
  match dispatch b (method r) with
  | Refused => (MethodNotAllowed, c)
  | disposition =>
      match viewerRequestStage code b r with
      | inr resp => (Generated resp, c)
      | inl r' =>
          let k := cacheKey offers (policyOf b) r' in
          let sent := originFacing (policyOf b) r' in
          let fresh :=
            customError (errorResponses d) origin (originRequestStage code origin b sent) in
          match disposition with
          | ThroughCache =>
              match cacheLookup c k with
              | Some resp => (CacheHit k resp, c)
              | None => (FromOrigin sent fresh, cachePut k (response fresh) c)
              end
          | _ => (FromOrigin sent fresh, c)
          end
      end
  end.

(** ** The life of a [GlobalStack] deployment

    The files of the checkout and the objects of the site bucket change
    independently of the deployed stack; only a deployment runs the
    constructor again.  A deployment goes through ([built]) or not, for
    reasons that lie outside the constructor's reading of the index file;
    one that does not go through, or whose constructor throws, leaves the
    previous stack in place. *)

(** An object of the site bucket. *)
Record StoredObject := {
  bytes : JsString;
  objectContentType : string
}.

Module Deployment.







End Deployment.

(** ** The viewer-request handler *)

Module Classifier.

Definition lowerAscii (a : ascii) : ascii :=
  let n := nat_of_ascii a in
  if (65 <=? n)%nat && (n <=? 90)%nat then ascii_of_nat (n + 32) else a.

(** Modelled from the spec: the case folding of the Classifier's
    case-insensitive match (lambda/viewer-request/index.ts is not among the
    sources); letters A to Z are folded, as [toLowerCase] does on them. *)
Fixpoint toLowerCase (s : string) : string :=
  match s with
  | EmptyString => EmptyString
  | String a rest => String (lowerAscii a) (toLowerCase rest)
  end.

Fixpoint startsWith (s prefix : string) {struct prefix} : bool :=
  match prefix, s with
  | EmptyString, _ => true
  | String _ _, EmptyString => false
  | String p prefix', String a s' => Ascii.eqb a p && startsWith s' prefix'
  end.

(** Modelled from the spec: the substring test of the Classifier
    (lambda/viewer-request/index.ts is not among the sources), as
    [String.prototype.includes]. *)
Fixpoint includes (s needle : string) : bool :=
  startsWith s needle ||
  match s with
  | EmptyString => false
  | String _ s' => includes s' needle
  end.

(** Modelled from the spec: the Classifier's policy of section 4.1
    (lambda/viewer-request/index.ts is not among the sources).  The
    client-identification header is [User-Agent]; it is matched, case
    folded, against every signature of the allow-list, which is
    configuration.  No header, or no match, is [false]. *)
Definition needsDynamicRendering (signatures : list string) (r : Request) : bool :=
  match headers r !! "user-agent" with
  | Some h => existsb (fun sig => includes (toLowerCase h) (toLowerCase sig)) signatures
  | None => false
  end.

Definition signalValue (b : bool) : string := if b then "true" else "false".

(** Modelled from the spec: the Classifier as a viewer-request handler
    (lambda/viewer-request/index.ts is not among the sources).  It attaches
    the decision as the reserved header of the same request and lets the
    request proceed. *)
Definition handler (signatures : list string) : Handler :=
  fun r => inl (setHeader x_need_dynamic_render
                  (signalValue (needsDynamicRendering signatures r)) r).

End Classifier.

(** ** The origin-request handler *)

Module OriginResolver.

(** Modelled from the spec: the store-lookup capability of section 6
    ([get(objectPath) -> (bytes, contentType) | NotFound | Error]), which
    the handler lambda/origin-request/index.ts, not among the sources, is
    given. *)
Inductive LookupResult := Found (o : StoredObject) | NotFound | Error.

(** Modelled from the spec: the store as the resolver meets it (section 6;
    lambda/origin-request/index.ts is not among the sources).  [objects]
    are its contents.  [faults] says of each coming lookup whether it fails
    transiently ([true]); a lookup past the end of the list does not.
    [lookups] records the paths asked for, oldest first. *)
Record Store := {
  objects : gmap string StoredObject;
  faults : list bool;
  lookups : list string
}.

Definition M (A : Type) : Type := Store -> A * Store.

Definition ret {A} (a : A) : M A := fun s => (a, s).

Definition bind {A B} (m : M A) (k : A -> M B) : M B :=
  fun s => let (a, s') := m s in k a s'.

Notation "'let*' x ':=' m 'in' k" := (bind m (fun x => k))
  (at level 10, x name, m at level 100, k at level 200).

Definition answer (objs : gmap string StoredObject) (objectPath : string) : LookupResult :=
  match objs !! objectPath with
  | Some o => Found o
  | None => NotFound
  end.

(** Modelled from the spec: one lookup of the store (section 6;
    lambda/origin-request/index.ts is not among the sources). *)
Definition get (objectPath : string) : M LookupResult :=
  fun s =>
    let s' fs := {| objects := objects s; faults := fs;
                    lookups := lookups s ++ [objectPath] |} in
    match faults s with
    | true :: fs => (Error, s' fs)
    | false :: fs => (answer (objects s) objectPath, s' fs)
    | [] => (answer (objects s) objectPath, s' [])
    end.

(** Modelled from the spec: a lookup that failed transiently is tried once
    more before the failure is surfaced (sections 4.3 and 7;
    lambda/origin-request/index.ts is not among the sources). *)
Definition getWithRetry (objectPath : string) : M LookupResult :=
  let* first := get objectPath in
  match first with
  | Error => get objectPath
  | _ => ret first
  end.

Inductive Resolution :=
  | Resolved (resp : Response)
  | NotFoundFailure
  | FulfillmentFailure.

Fixpoint lastSegmentFrom (segment path : string) : string :=
  match path with
  | EmptyString => segment
  | String c rest =>
      if Ascii.eqb c "/" then lastSegmentFrom EmptyString rest
      else lastSegmentFrom (segment ++ String c EmptyString) rest
  end.

Definition lastSegment (path : string) : string := lastSegmentFrom EmptyString path.

(** Modelled from the spec: "looks like a static-asset request", a last
    path segment that bears a file extension (section 4.3;
    lambda/origin-request/index.ts is not among the sources): the segment
    after the last slash contains a dot. *)
Definition hasFileExtension (path : string) : bool :=
  Classifier.includes (lastSegment path) ".".

Definition found (o : StoredObject) : Response :=
  {| status := 200; contentType := objectContentType o; body := bytes o |}.

Definition rootIndexDocument (indexHtml : JsString) : Response :=
  {| status := 200; contentType := "text/html"; body := indexHtml |}.

(** Modelled from the spec: the decision once no lookup has failed, the
    ordered table of section 4.3 (lambda/origin-request/index.ts is not
    among the sources): rendering-specific object, literal asset, index
    fallback, not found. *)
Definition decision (indexHtml : JsString) (path : string)
    (rendered literal : LookupResult) : Resolution :=
  match rendered with
  | Found o => Resolved (found o)
  | Error => FulfillmentFailure
  | NotFound =>
      match literal with
      | Found o => Resolved (found o)
      | Error => FulfillmentFailure
      | NotFound =>
          if hasFileExtension path then NotFoundFailure
          else Resolved (rootIndexDocument indexHtml)
      end
  end.

(** Modelled from the spec: the Origin Resolver of section 4.3
    (lambda/origin-request/index.ts is not among the sources).
    [renderPath] derives the rendering-specific path and is left open by
    the spec; [indexHtml] is the root index document the handler holds.
    The literal lookup is made only when the rendering-specific one did not
    settle the request. *)
Definition resolve (renderPath : string -> string) (indexHtml : JsString)
    (path : string) (signal : bool) : M Resolution :=
  let* rendered := if signal then getWithRetry (renderPath path) else ret NotFound in
  match rendered with
  | NotFound =>
      let* literal := getWithRetry path in
      ret (decision indexHtml path NotFound literal)
  | _ => ret (decision indexHtml path rendered NotFound)
  end.

(** The same decision read off the contents alone. *)
Definition resolvePure (renderPath : string -> string) (indexHtml : JsString)
    (objs : gmap string StoredObject) (path : string) (signal : bool) : Resolution :=
  decision indexHtml path
    (if signal then answer objs (renderPath path) else NotFound)
    (answer objs path).

(** No two transient failures in a row: every lookup answers at the
    latest when it is retried. *)
Fixpoint steady (fs : list bool) : bool :=
  match fs with
  | [] => true
  | f :: rest =>
      match rest with
      | g :: _ => negb (f && g) && steady rest
      | [] => true
      end
  end.

End OriginResolver.

(** ** Sentences of the specification as written, and sample data *)

(** Section 4.2 on methods, as it is written: GET, HEAD and OPTIONS go
    through the cache, every other method goes past it to the origin
    side. *)
Definition cachesGetHeadOptionsForwardsRest (b : BehaviorOptions) : Prop :=
  (forall m, m ∈ [GET; HEAD; OPTIONS] -> dispatch b m = ThroughCache) /\
  (forall m, m ∉ [GET; HEAD; OPTIONS] -> dispatch b m = PastCache).

Definition exampleProps : StaticSite.Props :=
  {| StaticSite.domainName := "example.com"; StaticSite.siteSubDomain := "www" |}.

Definition exampleOrigin : Request -> Response :=
  fun r =>
    if String.eqb (uri r) "/error.html"
    then {| status := 200; contentType := "text/html"; body := units "<h1>forbidden</h1>" |}
    else {| status := 403; contentType := "application/xml"; body := units "<Error/>" |}.

Definition passThrough : NodejsFunctionProps -> Handler := fun _ r => inl r.

Definition noEncoding : ContentEncoding -> option string -> bool := fun _ _ => false.


(** Section 4.1 on the reserved header, as it is written: what the
    viewer-request function is handed under that name does not depend on
    what the client sent under it. *)
Definition strippedBeforeClassifier (b : BehaviorOptions) : Prop :=
  forall r v,
    headers (viewerRequestInput b (setHeader x_need_dynamic_render v r))
      !! x_need_dynamic_render
    = headers (viewerRequestInput b
                 (withHeaders r (delete x_need_dynamic_render (headers r))))
        !! x_need_dynamic_render.

(** A browser's request that carries the reserved header itself. *)
Definition forged : Request := {|
  method := GET;
  uri := "/products/42";
  querystring := "";
  headers := {[ x_need_dynamic_render := "true"; "user-agent" := "Mozilla/5.0" ]}
|}.

Definition sentToOrigin (s : Served) : option Request :=
  match s with
  | FromOrigin sent _ => Some sent
  | _ => None
  end.

Definition exampleGlobalProps : GlobalStack.Props :=
  {| GlobalStack.domainName := "example.com"; GlobalStack.siteDomain := "foo.example.com" |}.

Definition exampleFiles : GlobalStack.FileSystem :=
  {[ "../front-app/dist/index.html" := units "<html><div id=app></div></html>" ]}.

(** An index file that quotes a price. *)
Definition priceFiles : GlobalStack.FileSystem :=
  {[ "../front-app/dist/index.html" := units "<p>cost: $5</p>" ]}.

Definition botRequest : Request := {|
  method := GET;
  uri := "/products/42";
  querystring := "";
  headers := {[ "user-agent" := "ExampleBot/2.1" ]}
|}.

Definition browserRequest : Request := {|
  method := GET;
  uri := "/products/42";
  querystring := "";
  headers := {[ "user-agent" := "Mozilla/5.0" ]}
|}.

Definition exampleClassifier : NodejsFunctionProps -> Handler :=
  fun _ => Classifier.handler ["examplebot"].

Definition exampleRenderPath : string -> string :=
  fun path => "/__rendered" ++ path ++ ".html".

Definition exampleIndexHtml : JsString := units "<html><div id=app></div></html>".

Definition prerendered : StoredObject :=
  {| bytes := units "<html><h1>42</h1></html>"; objectContentType := "text/html" |}.

(** A store holding one pre-rendered page, about to fail once. *)
Definition exampleStore : OriginResolver.Store := {|
  OriginResolver.objects := {[ "/__rendered/products/42.html" := prerendered ]};
  OriginResolver.faults := [true];
  OriginResolver.lookups := []
|}.

(** ** Further parts of the stacks and of the distribution *)

(** A sequence of code units is well formed when every surrogate is half
    of a pair, leading unit first. *)
Fixpoint wellFormedUnicode (s : JsString) : bool :=
  match s with
  | [] => true
  | c :: rest =>
      if isLeadingSurrogate c then
        match rest with
        | d :: rest' => isTrailingSurrogate d && wellFormedUnicode rest'
        | [] => false
        end
      else negb (isTrailingSurrogate c) && wellFormedUnicode rest
  end.

(** [s3deploy.BucketDeploymentProps], of which the destination bucket and
    the distribution are the stack's own. *)
Record BucketDeploymentProps := {
  sources : list string;
  distributionPaths : list string
}.

(** dynamic-rendering-stack.ts: the deployment of the site's files, which
    invalidates the distribution afterwards. *)
Definition DeployWithInvalidation : BucketDeploymentProps := {|
  sources := ["../front-app/dist"];
  distributionPaths := ["/*"]
|}.

(** An invalidation path without its final asterisk, when it ends in one. *)
Fixpoint beforeFinalAsterisk (pattern : string) : option string :=
  match pattern with
  | EmptyString => None
  | String c rest =>
      match rest with
      | EmptyString => if Ascii.eqb c "*" then Some EmptyString else None
      | String _ _ => String c <$> beforeFinalAsterisk rest
      end
  end.

(** An invalidation path that ends in an asterisk covers every path that
    begins with what stands before the asterisk; any other invalidation
    path covers the path equal to it. *)
Definition invalidationCovers (pattern path : string) : bool :=
  match beforeFinalAsterisk pattern with
  | Some start => String.prefix start path
  | None => String.eqb pattern path
  end.

(** An invalidation removes the entries of every covered path, whatever
    the rest of their keys. *)
Definition invalidate (paths : list string) (c : Cache) : Cache :=
  List.filter
    (fun e => negb (existsb (fun p => invalidationCovers p (keyPath (fst e))) paths)) c.

(** Further sample data. *)

Definition exampleResponse : Response :=
  {| status := 200; contentType := "text/html"; body := units "<html>cached</html>" |}.

Definition browserKey : CacheKey :=
  cacheKey noEncoding (policyOf (defaultBehavior (StaticSite.distribution exampleProps)))
    (setHeader x_need_dynamic_render "false" browserRequest).

Definition exampleCache : Cache := [(browserKey, exampleResponse)].

Definition failingOrigin : Request -> Response :=
  fun _ => {| status := 500; contentType := "text/plain"; body := units "down" |}.

(** Another crawler asking for the same path, with a query string. *)
Definition otherBotRequest : Request := {|
  method := GET;
  uri := "/products/42";
  querystring := "utm_source=feed";
  headers := {[ "user-agent" := "examplebot-image/1.0"; "cookie" := "a=b" ]}
|}.

(** The function [GlobalStack] bundles from the sample files. *)
Definition exampleBundled : NodejsFunctionProps :=
  default StaticSite.originRequestLambda (GlobalStack.originRequestFunction exampleFiles).

(** * Properties *)

(** ** The define of [GlobalStack] evaluates to the file it was read from *)

Section JsonRoundTrip.

Local Open Scope N_scope.
Local Open Scope list_scope.

Lemma hexValue_hexDigit (d : N) : d < 16 -> hexValue (hexDigit d) = Some d.
Proof.
  intros Hd. unfold hexDigit, hexValue.
  destruct (N.ltb_spec d 10).
  - replace ((48 <=? 48 + d) && (48 + d <=? 57)) with true.
    + f_equal. lia.
    + symmetry. apply andb_true_iff. split; apply N.leb_le; lia.
  - replace ((48 <=? 87 + d) && (87 + d <=? 57)) with false.
    + replace ((97 <=? 87 + d) && (87 + d <=? 102)) with true.
      * f_equal. lia.
      * symmetry. apply andb_true_iff. split; apply N.leb_le; lia.
    + symmetry. apply andb_false_iff. right. apply N.leb_gt. lia.
Qed.

Lemma hex4Value_digits (c : N) :
  c < 65536 ->
  hex4Value (hexDigit (c / 4096 mod 16)) (hexDigit (c / 256 mod 16))
            (hexDigit (c / 16 mod 16)) (hexDigit (c mod 16)) = Some c.
Proof.
  intros Hc. unfold hex4Value.
  rewrite !hexValue_hexDigit by (apply N.mod_lt; lia).
  f_equal.
  replace (c / 4096) with (c / 16 / 16 / 16) by (rewrite !N.Div0.div_div; reflexivity).
  replace (c / 256) with (c / 16 / 16) by (rewrite !N.Div0.div_div; reflexivity).
  pose proof (N.div_mod c 16 ltac:(lia)) as E0.
  pose proof (N.div_mod (c / 16) 16 ltac:(lia)) as E1.
  pose proof (N.div_mod (c / 16 / 16) 16 ltac:(lia)) as E2.
  pose proof (N.div_mod (c / 16 / 16 / 16) 16 ltac:(lia)) as E3.
  assert (c / 16 / 16 / 16 / 16 = 0) as E4
    by (rewrite !N.Div0.div_div; apply N.div_small; lia).
  rewrite E4 in E3. lia.
Qed.

Lemma stringCharacters_literal (c : N) (t : JsString) :
  c <> 34 -> c <> 92 -> 32 <= c ->
  stringCharacters (c :: t) = cons c <$> stringCharacters t.
Proof.
  intros H34 H92 H32. cbn [stringCharacters].
  rewrite (proj2 (N.eqb_neq c 34) H34), (proj2 (N.eqb_neq c 92) H92).
  rewrite (proj2 (N.ltb_ge c 32) H32). reflexivity.
Qed.

Lemma stringCharacters_quoteUnit (c : N) (t : JsString) :
  c < 65536 ->
  stringCharacters (quoteUnit c ++ t) = cons c <$> stringCharacters t.
Proof.
  intros Hc. unfold quoteUnit.
  destruct (N.eqb_spec c 8) as [-> | ?]; [reflexivity |].
  destruct (N.eqb_spec c 9) as [-> | ?]; [reflexivity |].
  destruct (N.eqb_spec c 10) as [-> | ?]; [reflexivity |].
  destruct (N.eqb_spec c 12) as [-> | ?]; [reflexivity |].
  destruct (N.eqb_spec c 13) as [-> | ?]; [reflexivity |].
  destruct (N.eqb_spec c 34) as [-> | ?]; [reflexivity |].
  destruct (N.eqb_spec c 92) as [-> | ?]; [reflexivity |].
  destruct ((c <? 32) || isSurrogate c) eqn:Hesc.
  - unfold UnicodeEscape. cbn -[hex4Value hexDigit N.div N.modulo].
    rewrite hex4Value_digits by exact Hc. reflexivity.
  - apply orb_false_iff in Hesc as [Hlt _].
    apply N.ltb_ge in Hlt. cbn [app]. apply stringCharacters_literal; assumption.
Qed.

Lemma surrogate_literal (c : N) : isSurrogate c = true -> c <> 34 /\ c <> 92 /\ 32 <= c.
Proof.
  unfold isSurrogate. intros H. apply andb_true_iff in H as [H _].
  apply N.leb_le in H. lia.
Qed.

Lemma leading_is_surrogate (c : N) : isLeadingSurrogate c = true -> isSurrogate c = true.
Proof.
  unfold isLeadingSurrogate, isSurrogate. intros H.
  apply andb_true_iff in H as [H1 H2]. apply N.leb_le in H1, H2.
  apply andb_true_iff. split; apply N.leb_le; lia.
Qed.

Lemma trailing_is_surrogate (c : N) : isTrailingSurrogate c = true -> isSurrogate c = true.
Proof.
  unfold isTrailingSurrogate, isSurrogate. intros H.
  apply andb_true_iff in H as [H1 H2]. apply N.leb_le in H1, H2.
  apply andb_true_iff. split; apply N.leb_le; lia.
Qed.

Lemma quoteUnits_cons (c : N) (rest : JsString) :
  quoteUnits (c :: rest) =
  match rest with
  | d :: rest' =>
      if isLeadingSurrogate c && isTrailingSurrogate d
      then c :: d :: quoteUnits rest'
      else quoteUnit c ++ quoteUnits rest
  | [] => quoteUnit c
  end.
Proof. destruct rest; reflexivity. Qed.

Lemma stringCharacters_quoteUnits (n : nat) :
  forall s : JsString, (length s <= n)%nat -> codeUnits s ->
    stringCharacters (quoteUnits s ++ [34]) = Some s.
Proof.
  induction n as [| n IH]; intros s Hlen Hs.
  - destruct s; [reflexivity | simpl in *; lia].
  - destruct s as [| c rest]; [reflexivity |].
    apply Forall_cons in Hs as [Hc Hrest].
    destruct rest as [| d rest'].
    + rewrite quoteUnits_cons, stringCharacters_quoteUnit by exact Hc. reflexivity.
    + rewrite quoteUnits_cons.
      destruct (isLeadingSurrogate c && isTrailingSurrogate d) eqn:Hpair.
      * apply andb_true_iff in Hpair as [Hl Ht].
        destruct (surrogate_literal c (leading_is_surrogate c Hl)) as (? & ? & ?).
        destruct (surrogate_literal d (trailing_is_surrogate d Ht)) as (? & ? & ?).
        apply Forall_cons in Hrest as [_ Hrest'].
        cbn [app]. rewrite !stringCharacters_literal by assumption.
        rewrite IH; [reflexivity | simpl in *; lia | exact Hrest'].
      * rewrite <- app_assoc, stringCharacters_quoteUnit by exact Hc.
        rewrite IH; [reflexivity | simpl in *; lia | exact Hrest].
Qed.

(** Reading back what [JSON.stringify] wrote gives the string itself. *)
Lemma evalStringLiteral_JSON_stringify (s : JsString) :
  codeUnits s -> evalStringLiteral (JSON_stringify s) = Some s.
Proof.
  intros Hs. unfold JSON_stringify, evalStringLiteral.
  cbn [N.eqb Pos.eqb]. change (34 =? 34) with true. cbn iota.
  exact (stringCharacters_quoteUnits (length s) s (le_n _) Hs).
Qed.

End JsonRoundTrip.

(** ** What [JSON.stringify] writes, unit by unit *)

Section DefineTextFacts.

Local Open Scope N_scope.
Local Open Scope list_scope.

(** [quoteUnits] follows the value one code point at a time. *)
Lemma quoteUnits_rect (Q : JsString -> JsString -> Prop) :
  Q [] [] ->
  (forall c d rest,
      isLeadingSurrogate c && isTrailingSurrogate d = true ->
      Q rest (quoteUnits rest) ->
      Q (c :: d :: rest) (c :: d :: quoteUnits rest)) ->
  (forall c rest,
      Q rest (quoteUnits rest) ->
      Q (c :: rest) (quoteUnit c ++ quoteUnits rest)) ->
  forall s, Q s (quoteUnits s).
Proof.
  intros Hnil Hpair Hone s.
  assert (forall n (t : JsString), (length t <= n)%nat -> Q t (quoteUnits t)) as Hall.
  { induction n as [| n IH]; intros t Hlen.
    - destruct t; [exact Hnil | simpl in Hlen; lia].
    - destruct t as [| c rest]; [exact Hnil |].
      rewrite quoteUnits_cons. destruct rest as [| d rest'].
      + specialize (Hone c [] Hnil). cbn [quoteUnits] in Hone.
        rewrite app_nil_r in Hone. exact Hone.
      + destruct (isLeadingSurrogate c && isTrailingSurrogate d) eqn:Hp.
        * apply Hpair; [exact Hp |]. apply IH. simpl in *; lia.
        * apply Hone. apply IH. simpl in *; lia. }
  exact (Hall (length s) s (le_n _)).
Qed.

Lemma hexDigit_range (d : N) : d < 16 -> 48 <= hexDigit d /\ hexDigit d <= 102.
Proof.
  intros Hd. unfold hexDigit. destruct (N.ltb_spec d 10); lia.
Qed.

Lemma UnicodeEscape_units (c : N) :
  Forall (fun u => 32 <= u /\ u <= 117) (UnicodeEscape c).
Proof.
  unfold UnicodeEscape.
  pose proof (hexDigit_range (c / 4096 mod 16) ltac:(apply N.mod_lt; lia)).
  pose proof (hexDigit_range (c / 256 mod 16) ltac:(apply N.mod_lt; lia)).
  pose proof (hexDigit_range (c / 16 mod 16) ltac:(apply N.mod_lt; lia)).
  pose proof (hexDigit_range (c mod 16) ltac:(apply N.mod_lt; lia)).
  repeat constructor; lia.
Qed.

(** What is written for one code unit is one to six units long, none of
    them a control character or a surrogate, and all of them code units
    when the unit written is one. *)
Lemma quoteUnit_units (c : N) :
  Forall (fun u => 32 <= u /\ isSurrogate u = false /\ (c < 65536 -> u < 65536))
         (quoteUnit c)
  /\ (1 <= length (quoteUnit c) <= 6)%nat.
Proof.
  unfold quoteUnit.
  destruct (N.eqb_spec c 8); [split; [repeat constructor; lia | simpl; lia] |].
  destruct (N.eqb_spec c 9); [split; [repeat constructor; lia | simpl; lia] |].
  destruct (N.eqb_spec c 10); [split; [repeat constructor; lia | simpl; lia] |].
  destruct (N.eqb_spec c 12); [split; [repeat constructor; lia | simpl; lia] |].
  destruct (N.eqb_spec c 13); [split; [repeat constructor; lia | simpl; lia] |].
  destruct (N.eqb_spec c 34); [split; [repeat constructor; lia | simpl; lia] |].
  destruct (N.eqb_spec c 92); [split; [repeat constructor; lia | simpl; lia] |].
  destruct ((c <? 32) || isSurrogate c) eqn:Hesc.
  - split; [| simpl; lia].
    eapply List.Forall_impl; [| apply UnicodeEscape_units].
    cbv beta. intros u [Hlo Hhi]. split; [exact Hlo |]. split; [| lia].
    unfold isSurrogate. apply andb_false_iff. left. apply N.leb_gt. lia.
  - apply orb_false_iff in Hesc as [Hlt Hsur]. apply N.ltb_ge in Hlt.
    split; [| simpl; lia]. repeat constructor; [exact Hlt | exact Hsur | auto].
Qed.

Lemma not_surrogate_not_half (u : N) :
  isSurrogate u = false -> isLeadingSurrogate u = false /\ isTrailingSurrogate u = false.
Proof.
  unfold isSurrogate, isLeadingSurrogate, isTrailingSurrogate. intros H.
  apply andb_false_iff in H as [H | H]; [apply N.leb_gt in H | apply N.leb_gt in H];
    split; apply andb_false_iff;
    solve [left; apply N.leb_gt; lia | right; apply N.leb_gt; lia].
Qed.

Lemma wellFormedUnicode_app (a b : JsString) :
  Forall (fun u => isSurrogate u = false) a ->
  wellFormedUnicode (a ++ b) = wellFormedUnicode b.
Proof.
  induction 1 as [| u a Hu _ IH]; [reflexivity |].
  cbn [app wellFormedUnicode].
  destruct (not_surrogate_not_half u Hu) as [-> ->]. exact IH.
Qed.

Lemma wellFormedUnicode_quoteUnits (s b : JsString) :
  wellFormedUnicode (quoteUnits s ++ b) = wellFormedUnicode b.
Proof.
  revert b.
  apply (quoteUnits_rect
           (fun _ out => forall b, wellFormedUnicode (out ++ b) = wellFormedUnicode b)).
  - reflexivity.
  - intros c d rest Hp IH b. apply andb_true_iff in Hp as [Hl Ht].
    cbn [app wellFormedUnicode]. rewrite Hl, Ht. exact (IH b).
  - intros c rest IH b. rewrite <- app_assoc.
    rewrite wellFormedUnicode_app; [exact (IH b) |].
    eapply List.Forall_impl; [| apply (proj1 (quoteUnit_units c))].
    intros u (_ & Hu & _). exact Hu.
Qed.

Lemma quoteUnits_units (s : JsString) :
  Forall (fun u => 32 <= u) (quoteUnits s)
  /\ (codeUnits s -> codeUnits (quoteUnits s))
  /\ (length s <= length (quoteUnits s) <= 6 * length s)%nat.
Proof.
  apply (quoteUnits_rect
           (fun s out => Forall (fun u => 32 <= u) out
                         /\ (codeUnits s -> codeUnits out)
                         /\ (length s <= length out <= 6 * length s)%nat)).
  - repeat split; try constructor; simpl; lia.
  - intros c d rest Hp (IH1 & IH2 & IH3). apply andb_true_iff in Hp as [Hl Ht].
    unfold isLeadingSurrogate in Hl. unfold isTrailingSurrogate in Ht.
    apply andb_true_iff in Hl as [Hl _]. apply andb_true_iff in Ht as [Ht _].
    apply N.leb_le in Hl, Ht.
    split; [repeat constructor; try lia; exact IH1 |]. split.
    + unfold codeUnits. intros Hs.
      apply Forall_cons in Hs as [Hc Hs]. apply Forall_cons in Hs as [Hd Hs].
      repeat constructor; try assumption. exact (IH2 Hs).
    + simpl in *. lia.
  - intros c rest (IH1 & IH2 & IH3).
    destruct (quoteUnit_units c) as [Hq Hlen].
    split; [apply Forall_app; split; [| exact IH1];
            eapply List.Forall_impl; [| exact Hq]; intros u (Hu & _); exact Hu |].
    split.
    + unfold codeUnits. intros Hs. apply Forall_cons in Hs as [Hc Hs].
      apply Forall_app. split; [| exact (IH2 Hs)].
      eapply List.Forall_impl; [| exact Hq]. intros u (_ & _ & Hu). exact (Hu Hc).
    + rewrite length_app. simpl in *. lia.
Qed.

(** *** Through the shell *)








End DefineTextFacts.

(** ** What one request does to the cache *)

Section Serve.

Variable offers : ContentEncoding -> option string -> bool.
Variable code : NodejsFunctionProps -> Handler.
Variable origin : Request -> Response.
Variable d : DistributionProps.

(** Serving a request leaves the cache as it was or adds one entry, under
    the key of the request the viewer-request stage returned. *)
Lemma serve_cache (c : Cache) (r : Request) :
  (serve offers code origin d c r).2 = c \/
  exists r' resp,
    viewerRequestStage code (defaultBehavior d) r = inl r' /\
    (serve offers code origin d c r).2
      = cachePut (cacheKey offers (policyOf (defaultBehavior d)) r') resp c.
Proof.
  unfold serve.
  destruct (dispatch (defaultBehavior d) (method r));
    [left; reflexivity | |];
    destruct (viewerRequestStage code (defaultBehavior d) r) as [r' | resp];
    try (left; reflexivity).
  destruct (cacheLookup c (cacheKey offers (policyOf (defaultBehavior d)) r'));
    [left; reflexivity |].
  right. eexists r', _. split; reflexivity.
Qed.

(** A hit is the entry the cache holds under the key of the request the
    viewer-request stage returned. *)
Lemma serve_hit (c : Cache) (r : Request) (k : CacheKey) (hit : Response) :
  (serve offers code origin d c r).1 = CacheHit k hit ->
  exists r',
    viewerRequestStage code (defaultBehavior d) r = inl r' /\
    k = cacheKey offers (policyOf (defaultBehavior d)) r' /\
    cacheLookup c k = Some hit.
Proof.
  unfold serve.
  destruct (dispatch (defaultBehavior d) (method r)); [discriminate | |];
    destruct (viewerRequestStage code (defaultBehavior d) r) as [r' | resp];
    try discriminate.
  destruct (cacheLookup c (cacheKey offers (policyOf (defaultBehavior d)) r')) eqn:Hc;
    [| discriminate].
  cbn [fst]. intros [= <- <-]. exists r'. auto.
Qed.

End Serve.

(** ** The cache key of the dynamic-rendering stack *)

Section CachePartition.

Variable offers : ContentEncoding -> option string -> bool.
Variable props : StaticSite.Props.

Local Abbreviation behavior := (defaultBehavior (StaticSite.distribution props)).
Local Abbreviation policy := (policyOf behavior).

Lemma cacheLookup_cachePut_ne (c : Cache) (k k' : CacheKey) (resp : Response) :
  k <> k' -> cacheLookup (cachePut k resp c) k' = cacheLookup c k'.
Proof.
  intros Hne. unfold cacheLookup, cachePut. cbn [find fst].
  rewrite bool_decide_eq_false_2 by exact Hne. reflexivity.
Qed.

Lemma StaticSite_keyHeaders (r : Request) :
  keyHeaders (cacheKey offers policy r) =
  [(x_need_dynamic_render, headers r !! x_need_dynamic_render)].
Proof. reflexivity. Qed.

Lemma StaticSite_keys_differ (r1 r2 : Request) :
  headers r1 !! x_need_dynamic_render <> headers r2 !! x_need_dynamic_render ->
  cacheKey offers policy r1 <> cacheKey offers policy r2.
Proof.
  intros Hne Heq. apply (f_equal keyHeaders) in Heq.
  rewrite !StaticSite_keyHeaders in Heq. congruence.
Qed.

(** C1. In the dynamic-rendering stack the cache key of a request is its
    path, the value of its [x-need-dynamic-render] header (or its absence)
    and the negotiated content encoding, and nothing else.  Two requests
    whose header values differ therefore have different keys; storing a
    response for one leaves what the cache returns for the other
    unchanged; and when both are served in turn, a hit for the second is
    an entry the cache held before the first was served. *)
Theorem cache_partition_isolation
    (code : NodejsFunctionProps -> Handler) (origin : Request -> Response)
    (c : Cache) (r1 r2 r1' r2' : Request) (resp : Response) :
  viewerRequestStage code behavior r1 = inl r1' ->
  viewerRequestStage code behavior r2 = inl r2' ->
  headers r1' !! x_need_dynamic_render <> headers r2' !! x_need_dynamic_render ->
  cacheKey offers policy r1' =
    {| keyPath := uri r1';
       keyHeaders := [(x_need_dynamic_render, headers r1' !! x_need_dynamic_render)];
       keyQueryString := None;
       keyCookies := None;
       keyEncoding :=
         filter (fun e => offers e (headers r1' !! "accept-encoding")) [br; gzip] |}
  /\ cacheKey offers policy r1' <> cacheKey offers policy r2'
  /\ cacheLookup (cachePut (cacheKey offers policy r1') resp c) (cacheKey offers policy r2')
     = cacheLookup c (cacheKey offers policy r2')
  /\ (forall k hit,
        (serve offers code origin (StaticSite.distribution props)
           (serve offers code origin (StaticSite.distribution props) c r1).2 r2).1
          = CacheHit k hit ->
        cacheLookup c k = Some hit).
Proof.
  intros Hv1 Hv2 Hne.
  pose proof (StaticSite_keys_differ r1' r2' Hne) as Hkeys.
  split; [reflexivity |]. split; [exact Hkeys |].
  split; [apply cacheLookup_cachePut_ne; exact Hkeys |].
  intros k hit Hhit.
  apply serve_hit in Hhit as (r2'' & Hv2' & -> & Hlook).
  rewrite Hv2 in Hv2'. injection Hv2' as <-.
  destruct (serve_cache offers code origin (StaticSite.distribution props) c r1)
    as [Hsame | (r1'' & resp1 & Hv1' & Hput)].
  - rewrite Hsame in Hlook. exact Hlook.
  - rewrite Hv1 in Hv1'. injection Hv1' as <-.
    rewrite Hput, cacheLookup_cachePut_ne in Hlook by exact Hkeys. exact Hlook.
Qed.

End CachePartition.

(** ** The method gate *)

Section MethodGate.

Variable offers : ContentEncoding -> option string -> bool.
Variable code : NodejsFunctionProps -> Handler.
Variable origin : Request -> Response.

Lemma serve_refused (d : DistributionProps) (c : Cache) (r : Request) :
  dispatch (defaultBehavior d) (method r) = Refused ->
  serve offers code origin d c r = (MethodNotAllowed, c).
Proof. intros H. unfold serve. rewrite H. reflexivity. Qed.

Lemma serve_past_cache (d : DistributionProps) (c : Cache) (r : Request) :
  dispatch (defaultBehavior d) (method r) = PastCache ->
  (serve offers code origin d c r).2 = c /\
  forall k hit, (serve offers code origin d c r).1 <> CacheHit k hit.
Proof.
  intros H. unfold serve. rewrite H.
  destruct (viewerRequestStage code (defaultBehavior d) r); split; try reflexivity;
    intros k hit; discriminate.
Qed.

(** C6, as the stacks have it.  Both behaviors allow GET, HEAD and OPTIONS
    and set no cached methods: GET and HEAD go through the cache, OPTIONS
    is passed to the origin side without touching the cache, and every
    other method is refused by the distribution, which then serves no
    response of the origin side and stores nothing. *)
Theorem method_gate (props : StaticSite.Props) (gprops : GlobalStack.Props)
    (fn : NodejsFunctionProps) (m : Method) :
  dispatch (defaultBehavior (StaticSite.distribution props)) m
    = match m with
      | GET | HEAD => ThroughCache
      | OPTIONS => PastCache
      | PUT | PATCH | POST | DELETE => Refused
      end
  /\ dispatch (defaultBehavior (GlobalStack.distribution gprops fn)) m
     = dispatch (defaultBehavior (StaticSite.distribution props)) m
  /\ (forall c r, method r = m -> m ∉ [GET; HEAD; OPTIONS] ->
        serve offers code origin (StaticSite.distribution props) c r
          = (MethodNotAllowed, c))
  /\ (forall c r, method r = m -> m = OPTIONS ->
        (serve offers code origin (StaticSite.distribution props) c r).2 = c).
Proof.
  split; [destruct m; reflexivity |].
  split; [destruct m; reflexivity |].
  split.
  - intros c r Hm Hnot. apply serve_refused. rewrite Hm.
    destruct m; try reflexivity; exfalso; apply Hnot;
      rewrite !elem_of_cons; auto.
  - intros c r Hm ->. apply serve_past_cache. rewrite Hm. reflexivity.
Qed.

End MethodGate.

(** C6, the sentence as written fails: a POST is refused, not passed to
    the origin side, and an OPTIONS request is not looked up in the
    cache. *)
Lemma method_gate_counterexample :
  dispatch (defaultBehavior (StaticSite.distribution exampleProps)) POST = Refused
  /\ serve noEncoding passThrough exampleOrigin (StaticSite.distribution exampleProps) []
       {| method := POST; uri := "/products/42"; querystring := ""; headers := ∅ |}
     = (MethodNotAllowed, [])
  /\ dispatch (defaultBehavior (StaticSite.distribution exampleProps)) OPTIONS = PastCache
  /\ ~ cachesGetHeadOptionsForwardsRest
         (defaultBehavior (StaticSite.distribution exampleProps)).
Proof.
  split; [reflexivity |]. split; [reflexivity |]. split; [reflexivity |].
  intros [_ Hrest]. specialize (Hrest POST).
  assert (POST ∉ [GET; HEAD; OPTIONS]) as Hnot.
  { rewrite !elem_of_cons, elem_of_nil. intuition discriminate. }
  specialize (Hrest Hnot). discriminate Hrest.
Qed.

(** ** The rendering signal between the stages *)

Section Signal.

Variable offers : ContentEncoding -> option string -> bool.
Variable code : NodejsFunctionProps -> Handler.
Variable origin : Request -> Response.
Variable props : StaticSite.Props.

Local Abbreviation behavior := (defaultBehavior (StaticSite.distribution props)).
Local Abbreviation policy := (policyOf behavior).

Lemma originFacing_keeps_key_header (p : CachePolicyProps) (r : Request) (h : string) :
  h ∈ keyHeaderNames p -> headers (originFacing p r) !! h = headers r !! h.
Proof.
  intros Hin. unfold originFacing. cbn [headers].
  rewrite map_lookup_filter. destruct (headers r !! h) as [v |]; [| reflexivity].
  cbn. rewrite option_guard_True by exact Hin. reflexivity.
Qed.

Lemma originFacing_drops_other_header (p : CachePolicyProps) (r : Request) (h : string) :
  h ∉ keyHeaderNames p -> headers (originFacing p r) !! h = None.
Proof.
  intros Hin. unfold originFacing. cbn [headers].
  rewrite map_lookup_filter. destruct (headers r !! h) as [v |]; [| reflexivity].
  cbn. rewrite option_guard_False by exact Hin. reflexivity.
Qed.

Lemma serve_from_origin (d : DistributionProps) (c : Cache) (r sent : Request) (dl : Delivered) :
  (serve offers code origin d c r).1 = FromOrigin sent dl ->
  exists r',
    viewerRequestStage code (defaultBehavior d) r = inl r' /\
    sent = originFacing (policyOf (defaultBehavior d)) r' /\
    dl = customError (errorResponses d) origin
           (originRequestStage code origin (defaultBehavior d) sent).
Proof.
  unfold serve.
  destruct (dispatch (defaultBehavior d) (method r)); [discriminate | |];
    destruct (viewerRequestStage code (defaultBehavior d) r) as [r' | resp];
    try discriminate.
  - destruct (cacheLookup c (cacheKey offers (policyOf (defaultBehavior d)) r'));
      [discriminate |].
    cbn [fst]. intros [= <- <-]. exists r'. auto.
  - cbn [fst]. intros [= <- <-]. exists r'. auto.
Qed.

(** C5, as the stack has it.  The distribution hands the viewer's request
    to the viewer-request function as it arrived, reserved header
    included.  What the cache key holds and what the origin-request
    function is sent under that name is the value in the request the
    viewer-request function returned, whatever the viewer had sent: a
    function that sets the header on every request decides the signal
    alone. *)
Theorem signal_is_what_the_viewer_stage_returns (c : Cache) (r r' : Request) :
  viewerRequestStage code behavior r = inl r' ->
  viewerRequestInput behavior r = r
  /\ keyHeaders (cacheKey offers policy r')
     = [(x_need_dynamic_render, headers r' !! x_need_dynamic_render)]
  /\ headers (originFacing policy r') !! x_need_dynamic_render
     = headers r' !! x_need_dynamic_render
  /\ (forall k hit,
        (serve offers code origin (StaticSite.distribution props) c r).1 = CacheHit k hit ->
        k = cacheKey offers policy r')
  /\ (forall sent dl,
        (serve offers code origin (StaticSite.distribution props) c r).1 = FromOrigin sent dl ->
        sent = originFacing policy r')
  /\ (forall r0 v, r' = setHeader x_need_dynamic_render v r0 ->
        headers r' !! x_need_dynamic_render = Some v).
Proof.
  intros Hv. split; [reflexivity |]. split; [reflexivity |].
  split.
  { apply originFacing_keeps_key_header. cbn. apply list_elem_of_singleton. reflexivity. }
  split.
  { intros k hit Hhit. apply serve_hit in Hhit as (r'' & Hv' & -> & _).
    rewrite Hv in Hv'. injection Hv' as <-. reflexivity. }
  split.
  { intros sent dl Hfrom. apply serve_from_origin in Hfrom as (r'' & Hv' & -> & _).
    rewrite Hv in Hv'. injection Hv' as <-. reflexivity. }
  intros r0 v ->. unfold setHeader, withHeaders. cbn [headers].
  apply lookup_insert_eq.
Qed.

End Signal.

(** C5, the sentence as written fails: nothing strips the reserved header
    ahead of the viewer-request function, which is handed the viewer's
    value; and with a function that returns the request untouched that
    value is the one in the cache key and the one sent to the origin
    side. *)
Lemma forged_signal_counterexample :
  headers (viewerRequestInput (defaultBehavior (StaticSite.distribution exampleProps)) forged)
    !! x_need_dynamic_render = Some "true"
  /\ keyHeaders (cacheKey noEncoding
                   (policyOf (defaultBehavior (StaticSite.distribution exampleProps))) forged)
     = [(x_need_dynamic_render, Some "true")]
  /\ (sentToOrigin (serve noEncoding passThrough exampleOrigin
                      (StaticSite.distribution exampleProps) [] forged).1
        ≫= fun sent => headers sent !! x_need_dynamic_render) = Some "true"
  /\ ~ strippedBeforeClassifier (defaultBehavior (StaticSite.distribution exampleProps)).
Proof.
  split; [reflexivity |]. split; [reflexivity |]. split.
  - cbn. apply originFacing_keeps_key_header.
    cbn. apply list_elem_of_singleton. reflexivity.
  - intros Hstrip. specialize (Hstrip browserRequest "true").
    vm_compute in Hstrip. discriminate Hstrip.
Qed.

(** C5, witness: the Classifier of the specification, which sets the
    header on every request, overrides the forged value. *)
Lemma signal_is_what_the_viewer_stage_returns_witness :
  viewerRequestStage (fun _ => Classifier.handler ["examplebot"])
    (defaultBehavior (StaticSite.distribution exampleProps)) forged
    = inl (setHeader x_need_dynamic_render "false" forged)
  /\ headers (originFacing (policyOf (defaultBehavior (StaticSite.distribution exampleProps)))
                (setHeader x_need_dynamic_render "false" forged))
       !! x_need_dynamic_render = Some "false".
Proof.
  split; [reflexivity |].
  destruct (signal_is_what_the_viewer_stage_returns noEncoding
              (fun _ => Classifier.handler ["examplebot"]) exampleOrigin exampleProps []
              forged (setHeader x_need_dynamic_render "false" forged) eq_refl)
    as (_ & _ & Hsent & _ & _ & Hset).
  rewrite Hsent. exact (Hset forged "false" eq_refl).
Defined.

(** ** The custom error response of [GlobalStack] *)

Section ErrorResponses.

Variable offers : ContentEncoding -> option string -> bool.
Variable code : NodejsFunctionProps -> Handler.
Variable origin : Request -> Response.



End ErrorResponses.


(** ** The Classifier *)

Section ClassifierPolicy.

Import Classifier.

Lemma startsWith_spec (s p : string) :
  startsWith s p = true <-> exists post, s = p ++ post.
Proof.
  revert s. induction p as [| a p IH]; intros s.
  - split; [intros _; exists s; reflexivity | reflexivity].
  - destruct s as [| b s]; cbn [startsWith].
    + split; [discriminate | intros [post H]; discriminate H].
    + rewrite andb_true_iff, IH. split.
      * intros [Hab [post ->]]. apply Ascii.eqb_eq in Hab as ->.
        exists post. reflexivity.
      * intros [post H]. cbn in H. injection H as -> ->.
        split; [apply Ascii.eqb_refl | exists post; reflexivity].
Qed.

Lemma includes_spec (s needle : string) :
  includes s needle = true <-> exists pre post, s = pre ++ needle ++ post.
Proof.
  induction s as [| b s IH].
  - cbn [includes]. rewrite orb_false_r, startsWith_spec. split.
    + intros [post H]. exists EmptyString, post. exact H.
    + intros [pre [post H]]. destruct pre; [exists post; exact H | discriminate H].
  - cbn [includes]. rewrite orb_true_iff, startsWith_spec, IH. split.
    + intros [[post H] | [pre [post H]]].
      * exists EmptyString, post. exact H.
      * exists (String b pre), post. cbn. rewrite H. reflexivity.
    + intros [pre [post H]]. destruct pre as [| c pre].
      * left. exists post. exact H.
      * right. cbn in H. injection H as -> ->. exists pre, post. reflexivity.
Qed.

(** C4. The Classifier answers [true] exactly for the requests whose
    [User-Agent], case folded, contains a case-folded signature of the
    allow-list; for a request without the header, or with a header that
    contains none, it answers [false].  It always lets the request
    proceed, with the answer attached as the reserved header. *)
Theorem classifier_policy (signatures : list string) (r : Request) :
  (needsDynamicRendering signatures r = true <->
     exists h sig,
       headers r !! "user-agent" = Some h /\ sig ∈ signatures /\
       exists pre post, toLowerCase h = pre ++ toLowerCase sig ++ post)
  /\ (needsDynamicRendering signatures r = false <->
        headers r !! "user-agent" = None \/
        exists h, headers r !! "user-agent" = Some h /\
          forall sig, sig ∈ signatures ->
            ~ exists pre post, toLowerCase h = pre ++ toLowerCase sig ++ post)
  /\ handler signatures r
     = inl (setHeader x_need_dynamic_render
              (if needsDynamicRendering signatures r then "true" else "false") r).
Proof.
  assert (needsDynamicRendering signatures r = true <->
     exists h sig,
       headers r !! "user-agent" = Some h /\ sig ∈ signatures /\
       exists pre post, toLowerCase h = pre ++ toLowerCase sig ++ post) as Htrue.
  { unfold needsDynamicRendering. destruct (headers r !! "user-agent") as [h |].
    - rewrite existsb_exists. split.
      + intros [sig [Hin Hinc]]. exists h, sig.
        split; [reflexivity |]. split; [apply list_elem_of_In; exact Hin |].
        apply includes_spec. exact Hinc.
      + intros (h' & sig & [= <-] & Hin & Hsub). exists sig.
        split; [apply list_elem_of_In; exact Hin | apply includes_spec; exact Hsub].
    - split; [discriminate | intros (h & sig & H & _); discriminate H]. }
  split; [exact Htrue |]. split; [| reflexivity].
  rewrite <- not_true_iff_false, Htrue. split.
  - intros Hnone. destruct (headers r !! "user-agent") as [h |]; [| left; reflexivity].
    right. exists h. split; [reflexivity |].
    intros sig Hin Hsub. apply Hnone. exists h, sig. auto.
  - intros [Habsent | (h & Hh & Hno)] (h' & sig & Hh' & Hin & Hsub).
    + rewrite Habsent in Hh'. discriminate Hh'.
    + rewrite Hh in Hh'. injection Hh' as <-. exact (Hno sig Hin Hsub).
Qed.

End ClassifierPolicy.

(** ** The Origin Resolver *)

Section Resolver.

Import OriginResolver.

Variable renderPath : string -> string.
Variable indexHtml : JsString.

Lemma steady_tail (f : bool) (fs : list bool) :
  steady (f :: fs) = true -> steady fs = true.
Proof.
  destruct fs as [| g fs]; [reflexivity |].
  cbn [steady]. intros H. apply andb_true_iff in H as [_ H]. exact H.
Qed.

Lemma steady_no_double (fs : list bool) : steady (true :: true :: fs) = false.
Proof. reflexivity. Qed.

(** With no two failures in a row a lookup, retried at most once, gives the
    store's own answer and leaves the contents alone. *)
Lemma getWithRetry_steady (p : string) (s : Store) :
  steady (faults s) = true ->
  (getWithRetry p s).1 = answer (objects s) p
  /\ objects (getWithRetry p s).2 = objects s
  /\ steady (faults (getWithRetry p s).2) = true.
Proof.
  intros Hs. unfold getWithRetry, bind, get, ret, answer.
  destruct (faults s) as [| [|] fs] eqn:Hf.
  - destruct (objects s !! p); cbn; auto.
  - cbn. destruct fs as [| [|] fs'].
    + cbn. auto.
    + discriminate Hs.
    + cbn. repeat split. apply steady_tail in Hs. apply steady_tail in Hs. exact Hs.
  - apply steady_tail in Hs. destruct (objects s !! p); cbn; auto.
Qed.

(** With no two failures in a row the resolver computes the decision table
    on the contents, and leaves the contents alone. *)
Lemma resolve_steady (path : string) (signal : bool) (s : Store) :
  steady (faults s) = true ->
  (resolve renderPath indexHtml path signal s).1
    = resolvePure renderPath indexHtml (objects s) path signal
  /\ objects (resolve renderPath indexHtml path signal s).2 = objects s
  /\ steady (faults (resolve renderPath indexHtml path signal s).2) = true.
Proof.
  intros Hs. unfold resolve, resolvePure, bind.
  destruct signal.
  - destruct (getWithRetry_steady (renderPath path) s Hs) as (Ha & Ho & Hs').
    destruct (getWithRetry (renderPath path) s) as [rendered s'].
    cbn [fst snd] in Ha, Ho, Hs'. rewrite <- Ha.
    destruct rendered; cbn [ret fst snd]; auto.
    destruct (getWithRetry_steady path s' Hs') as (Ha2 & Ho2 & Hs2).
    destruct (getWithRetry path s') as [literal s''].
    cbn [fst snd] in Ha2, Ho2, Hs2. cbn [ret fst snd].
    rewrite <- Ho, <- Ha2, Ho2. auto.
  - cbn [ret].
    destruct (getWithRetry_steady path s Hs) as (Ha2 & Ho2 & Hs2).
    destruct (getWithRetry path s) as [literal s''].
    cbn [fst snd] in Ha2, Ho2, Hs2. cbn [ret fst snd].
    rewrite <- Ha2. auto.
Qed.

(** C2. For a path whose last segment bears no file extension, with no
    object stored under it (nor, when the signal is set, under its
    rendering-specific path), resolution returns the root index document
    with status 200, whatever the signal. *)
Theorem fallback_law (path : string) (signal : bool) (s : Store) :
  steady (faults s) = true ->
  hasFileExtension path = false ->
  objects s !! path = None ->
  (signal = true -> objects s !! renderPath path = None) ->
  (resolve renderPath indexHtml path signal s).1
    = Resolved {| status := 200; contentType := "text/html"; body := indexHtml |}.
Proof.
  intros Hs Hext Hlit Hren.
  rewrite (proj1 (resolve_steady path signal s Hs)).
  unfold resolvePure, decision, answer. rewrite Hlit, Hext.
  destruct signal; [rewrite (Hren eq_refl) |]; reflexivity.
Qed.

(** C3. For a path whose last segment bears a file extension, with no
    object stored under it (nor, when the signal is set, under its
    rendering-specific path), resolution reports not found and does not
    return the index document. *)
Theorem negative_law (path : string) (signal : bool) (s : Store) :
  steady (faults s) = true ->
  hasFileExtension path = true ->
  objects s !! path = None ->
  (signal = true -> objects s !! renderPath path = None) ->
  (resolve renderPath indexHtml path signal s).1 = NotFoundFailure
  /\ (resolve renderPath indexHtml path signal s).1 <> Resolved (rootIndexDocument indexHtml).
Proof.
  intros Hs Hext Hlit Hren.
  assert ((resolve renderPath indexHtml path signal s).1 = NotFoundFailure) as H.
  { rewrite (proj1 (resolve_steady path signal s Hs)).
    unfold resolvePure, decision, answer. rewrite Hlit, Hext.
    destruct signal; [rewrite (Hren eq_refl) |]; reflexivity. }
  split; [exact H | rewrite H; discriminate].
Qed.


End Resolver.

Section Retry.

Import OriginResolver.

Variable renderPath : string -> string.
Variable indexHtml : JsString.





End Retry.


(** ** The index document of [GlobalStack] is read when the stack is built *)

Section Snapshot.

Import Deployment.
Import OriginResolver.




End Snapshot.

(** Where the define goes through the shell, a dollar in the file is
    expanded on the way: the handler then holds a text that differs from
    the file. *)
Example a_dollar_is_expanded_by_the_shell :
  (f ← GlobalStack.originRequestFunction priceFiles;
   definedString ThroughShell f GlobalStack.SITE_ROOT_INDEX_HTML_CONTENT)
    = Some (units "<p>cost: </p>")
  /\ (f ← GlobalStack.originRequestFunction priceFiles;
      definedString Verbatim f GlobalStack.SITE_ROOT_INDEX_HTML_CONTENT)
     = Some (units "<p>cost: $5</p>").
Proof. split; reflexivity. Qed.

(** ** Instances *)

(** C1, witness: a crawler and a browser asking for the same path. *)
Lemma cache_partition_isolation_witness :
  viewerRequestStage exampleClassifier
    (defaultBehavior (StaticSite.distribution exampleProps)) botRequest
    = inl (setHeader x_need_dynamic_render "true" botRequest)
  /\ viewerRequestStage exampleClassifier
       (defaultBehavior (StaticSite.distribution exampleProps)) browserRequest
     = inl (setHeader x_need_dynamic_render "false" browserRequest)
  /\ cacheKey noEncoding (policyOf (defaultBehavior (StaticSite.distribution exampleProps)))
       (setHeader x_need_dynamic_render "true" botRequest)
     <> cacheKey noEncoding (policyOf (defaultBehavior (StaticSite.distribution exampleProps)))
          (setHeader x_need_dynamic_render "false" browserRequest).
Proof.
  split; [reflexivity |]. split; [reflexivity |].
  apply (cache_partition_isolation noEncoding exampleProps exampleClassifier exampleOrigin []
           botRequest browserRequest
           (setHeader x_need_dynamic_render "true" botRequest)
           (setHeader x_need_dynamic_render "false" browserRequest)
           {| status := 200; contentType := "text/html"; body := [] |}).
  - reflexivity.
  - reflexivity.
  - vm_compute. discriminate.
Defined.

(** C2, witness: [/products/42] for a browser, the store failing once. *)
Lemma fallback_law_witness :
  OriginResolver.hasFileExtension "/products/42" = false
  /\ (OriginResolver.resolve exampleRenderPath exampleIndexHtml "/products/42" false
        exampleStore).1
     = OriginResolver.Resolved
         {| status := 200; contentType := "text/html"; body := exampleIndexHtml |}.
Proof.
  split; [reflexivity |].
  apply (fallback_law exampleRenderPath exampleIndexHtml "/products/42" false exampleStore).
  - reflexivity.
  - reflexivity.
  - reflexivity.
  - discriminate.
Defined.

(** C3, witness: [/assets/logo.png], signal set. *)
Lemma negative_law_witness :
  OriginResolver.hasFileExtension "/assets/logo.png" = true
  /\ (OriginResolver.resolve exampleRenderPath exampleIndexHtml "/assets/logo.png" true
        exampleStore).1
     = OriginResolver.NotFoundFailure.
Proof.
  split; [reflexivity |].
  apply (negative_law exampleRenderPath exampleIndexHtml "/assets/logo.png" true exampleStore).
  - reflexivity.
  - reflexivity.
  - reflexivity.
  - intros _. reflexivity.
Defined.

(** ** The scenarios of the specification *)

(** [/products/42], no signal, nothing stored: the index document. *)
Example scenario_client_route :
  (OriginResolver.resolve exampleRenderPath exampleIndexHtml "/products/42" false
     {| OriginResolver.objects := ∅; OriginResolver.faults := [];
        OriginResolver.lookups := [] |}).1
  = OriginResolver.Resolved
      {| status := 200; contentType := "text/html"; body := exampleIndexHtml |}.
Proof. reflexivity. Qed.

(** [/products/42], signal set, a pre-rendered page stored: that page. *)
Example scenario_prerendered :
  (OriginResolver.resolve exampleRenderPath exampleIndexHtml "/products/42" true
     exampleStore).1
  = OriginResolver.Resolved
      {| status := 200; contentType := "text/html";
         body := units "<html><h1>42</h1></html>" |}.
Proof. reflexivity. Qed.

(** [/assets/logo.png], nothing stored: not found. *)
Example scenario_missing_asset :
  (OriginResolver.resolve exampleRenderPath exampleIndexHtml "/assets/logo.png" false
     exampleStore).1
  = OriginResolver.NotFoundFailure.
Proof. reflexivity. Qed.

(** A store that fails twice in a row: the failure is surfaced, and the
    path was asked for exactly twice. *)
Example scenario_store_down :
  OriginResolver.resolve exampleRenderPath exampleIndexHtml "/products/42" false
    {| OriginResolver.objects := ∅; OriginResolver.faults := [true; true];
       OriginResolver.lookups := [] |}
  = (OriginResolver.FulfillmentFailure,
     {| OriginResolver.objects := ∅; OriginResolver.faults := [];
        OriginResolver.lookups := ["/products/42"; "/products/42"] |}).
Proof. reflexivity. Qed.

(** [ExampleBot/2.1] against the signature [examplebot]; no header. *)
Example scenario_example_bot :
  Classifier.needsDynamicRendering ["examplebot"] botRequest = true
  /\ Classifier.needsDynamicRendering ["examplebot"] browserRequest = false
  /\ Classifier.needsDynamicRendering ["examplebot"]
       {| method := GET; uri := "/"; querystring := ""; headers := ∅ |} = false.
Proof. repeat split; reflexivity. Qed.

(** The bundle text for a small document, escapes included. *)
Example scenario_define_text :
  JSON_stringify [60; 112; 62; 34; 104; 105; 34; 10; 60; 47; 112; 62]%N
  = [34; 60; 112; 62; 92; 34; 104; 105; 92; 34; 92; 110; 60; 47; 112; 62; 34]%N.
Proof. reflexivity. Qed.

(** In [GlobalStack], which sets no cache policy, the reserved header is
    not part of the key and is not sent to the origin side. *)
Lemma GlobalStack_key_has_no_header (offers : ContentEncoding -> option string -> bool)
    (gprops : GlobalStack.Props) (fn : NodejsFunctionProps) (r : Request) :
  keyHeaders (cacheKey offers
                (policyOf (defaultBehavior (GlobalStack.distribution gprops fn))) r) = []
  /\ headers (originFacing
                (policyOf (defaultBehavior (GlobalStack.distribution gprops fn))) r)
       !! x_need_dynamic_render = None.
Proof.
  split; [reflexivity |].
  apply originFacing_drops_other_header. cbn. apply not_elem_of_nil.
Qed.

(** * Further properties of the stacks *)

(** ** The text of the define *)

Section DefineText.

Local Open Scope N_scope.
Local Open Scope list_scope.

(** X1. What [JSON.stringify] writes for a string reads back as that
    string, so two contents of [index.html] never give the same define
    text. *)
Theorem JSON_stringify_is_injective (s1 s2 : JsString) :
  codeUnits s1 -> codeUnits s2 ->
  evalStringLiteral (JSON_stringify s1) = Some s1
  /\ (JSON_stringify s1 = JSON_stringify s2 -> s1 = s2).
Proof.
  intros H1 H2. split; [apply evalStringLiteral_JSON_stringify; exact H1 |].
  intros Heq.
  pose proof (evalStringLiteral_JSON_stringify s1 H1) as E1.
  pose proof (evalStringLiteral_JSON_stringify s2 H2) as E2.
  rewrite Heq in E1. congruence.
Qed.

(** X2. The text [JSON.stringify] writes holds no control character (no
    code unit below 32, so it is one line) and no lone surrogate, whatever
    the string; and it is made of code units when the string is. *)
Theorem JSON_stringify_text_is_clean (s : JsString) :
  Forall (fun u => 32 <= u) (JSON_stringify s)
  /\ wellFormedUnicode (JSON_stringify s) = true
  /\ (codeUnits s -> codeUnits (JSON_stringify s)).
Proof.
  destruct (quoteUnits_units s) as (Hpr & Hcu & _).
  unfold JSON_stringify. split.
  - constructor; [lia |]. apply Forall_app. split; [exact Hpr |].
    repeat constructor. lia.
  - split.
    + change (34 :: quoteUnits s ++ [34]) with ([34] ++ (quoteUnits s ++ [34])).
      rewrite wellFormedUnicode_app by (repeat constructor).
      rewrite wellFormedUnicode_quoteUnits. reflexivity.
    + intros Hs. unfold codeUnits. constructor; [lia |].
      apply Forall_app. split; [exact (Hcu Hs) |]. repeat constructor.
Qed.

(** X3. The text is longer than the string by the two quotes at least,
    and at most six times as long plus the quotes. *)
Theorem JSON_stringify_length (s : JsString) :
  (length s + 2 <= length (JSON_stringify s) <= 6 * length s + 2)%nat.
Proof.
  destruct (quoteUnits_units s) as (_ & _ & Hlen).
  unfold JSON_stringify. cbn [length]. rewrite length_app. simpl. lia.
Qed.

End DefineText.

(** X1, witness: two small documents, one with a quote and a line feed. *)
Lemma JSON_stringify_is_injective_witness :
  evalStringLiteral (JSON_stringify [60; 112; 62; 34; 10; 60; 47; 112; 62]%N)
    = Some [60; 112; 62; 34; 10; 60; 47; 112; 62]%N
  /\ (JSON_stringify [60; 112; 62; 34; 10; 60; 47; 112; 62]%N
        = JSON_stringify [60; 112; 62]%N ->
      [60; 112; 62; 34; 10; 60; 47; 112; 62]%N = [60; 112; 62]%N).
Proof.
  apply (JSON_stringify_is_injective
           [60; 112; 62; 34; 10; 60; 47; 112; 62]%N [60; 112; 62]%N);
    unfold codeUnits; repeat constructor.
Defined.

(** ** What partitions the cache *)

Section Views.

Variable offers : ContentEncoding -> option string -> bool.
Variable props : StaticSite.Props.
Variable gprops : GlobalStack.Props.
Variable fn : NodejsFunctionProps.

Local Abbreviation policy := (policyOf (defaultBehavior (StaticSite.distribution props))).
Local Abbreviation gpolicy := (policyOf (defaultBehavior (GlobalStack.distribution gprops fn))).

(** X4. In the dynamic-rendering stack two requests have the same cache
    key exactly when they agree on the path, on the reserved header (its
    value or its absence) and on the negotiated encodings: the query
    string, the cookies and every other header do not partition the
    cache. *)
Theorem StaticSite_same_key_iff (r1 r2 : Request) :
  cacheKey offers policy r1 = cacheKey offers policy r2 <->
  uri r1 = uri r2
  /\ headers r1 !! x_need_dynamic_render = headers r2 !! x_need_dynamic_render
  /\ negotiated offers policy r1 = negotiated offers policy r2.
Proof.
  split.
  - intros Heq.
    pose proof (f_equal keyPath Heq) as Hp.
    pose proof (f_equal keyHeaders Heq) as Hh.
    pose proof (f_equal keyEncoding Heq) as He.
    cbn in Hp, Hh. injection Hh as Hh. auto.
  - intros (Hu & Hh & He). unfold cacheKey. rewrite Hu, He. cbn [keyHeaderNames map].
    cbn. rewrite Hh. reflexivity.
Qed.

(** X6. In [GlobalStack], which sets no cache policy, two requests have
    the same cache key exactly when they agree on the path and on the
    negotiated encodings: no header of the viewer, the query string and
    the cookies do not partition the cache. *)
Theorem GlobalStack_same_key_iff (r1 r2 : Request) :
  cacheKey offers gpolicy r1 = cacheKey offers gpolicy r2 <->
  uri r1 = uri r2 /\ negotiated offers gpolicy r1 = negotiated offers gpolicy r2.
Proof.
  split.
  - intros Heq. split; [exact (f_equal keyPath Heq) | exact (f_equal keyEncoding Heq)].
  - intros (Hu & He). unfold cacheKey. rewrite Hu, He. reflexivity.
Qed.

End Views.

(** ** Hits, misses and what the cache keeps *)

Section CacheLife.

Variable offers : ContentEncoding -> option string -> bool.

Lemma serve_on_miss (code : NodejsFunctionProps -> Handler) (origin : Request -> Response)
    (d : DistributionProps) (c : Cache) (r r' : Request) :
  dispatch (defaultBehavior d) (method r) = ThroughCache ->
  viewerRequestStage code (defaultBehavior d) r = inl r' ->
  cacheLookup c (cacheKey offers (policyOf (defaultBehavior d)) r') = None ->
  serve offers code origin d c r
  = (FromOrigin (originFacing (policyOf (defaultBehavior d)) r')
       (customError (errorResponses d) origin
          (originRequestStage code origin (defaultBehavior d)
             (originFacing (policyOf (defaultBehavior d)) r'))),
     cachePut (cacheKey offers (policyOf (defaultBehavior d)) r')
       (response (customError (errorResponses d) origin
          (originRequestStage code origin (defaultBehavior d)
             (originFacing (policyOf (defaultBehavior d)) r')))) c).
Proof.
  intros Hd Hv Hc. unfold serve. rewrite Hd, Hv, Hc. reflexivity.
Qed.

Lemma serve_on_hit (code : NodejsFunctionProps -> Handler) (origin : Request -> Response)
    (d : DistributionProps) (c : Cache) (r r' : Request) (hit : Response) :
  dispatch (defaultBehavior d) (method r) = ThroughCache ->
  viewerRequestStage code (defaultBehavior d) r = inl r' ->
  cacheLookup c (cacheKey offers (policyOf (defaultBehavior d)) r') = Some hit ->
  serve offers code origin d c r
  = (CacheHit (cacheKey offers (policyOf (defaultBehavior d)) r') hit, c).
Proof.
  intros Hd Hv Hc. unfold serve. rewrite Hd, Hv, Hc. reflexivity.
Qed.

Lemma cacheLookup_cachePut_eq (c : Cache) (k : CacheKey) (resp : Response) :
  cacheLookup (cachePut k resp c) k = Some resp.
Proof.
  unfold cacheLookup, cachePut. cbn [find fst].
  rewrite bool_decide_eq_true_2 by reflexivity. reflexivity.
Qed.

Lemma get_or_head_goes_through_cache (b : BehaviorOptions) (m : Method) :
  allowedMethods b = Some AllowedMethods.ALLOW_GET_HEAD_OPTIONS ->
  cachedMethods b = None ->
  m ∈ [GET; HEAD] ->
  dispatch b m = ThroughCache.
Proof.
  intros Ha Hc Hm. unfold dispatch, allowed, cached. rewrite Ha, Hc.
  rewrite !elem_of_cons, elem_of_nil in Hm.
  destruct Hm as [-> | [-> | []]]; reflexivity.
Qed.

Lemma serve_outcome_without_origin (code1 code2 : NodejsFunctionProps -> Handler)
    (origin1 origin2 : Request -> Response) (d : DistributionProps) (c : Cache)
    (r : Request) :
  viewerRequestStage code1 (defaultBehavior d) r
    = viewerRequestStage code2 (defaultBehavior d) r ->
  serve offers code1 origin1 d c r = serve offers code2 origin2 d c r
  \/ exists sent dl, (serve offers code1 origin1 d c r).1 = FromOrigin sent dl.
Proof.
  intros Hv. unfold serve. rewrite <- Hv.
  destruct (dispatch (defaultBehavior d) (method r)); [left; reflexivity | |];
    destruct (viewerRequestStage code1 (defaultBehavior d) r) as [r' | resp];
    try (left; reflexivity).
  - destruct (cacheLookup c (cacheKey offers (policyOf (defaultBehavior d)) r'));
      [left; reflexivity | right; eexists _, _; reflexivity].
  - right. eexists _, _. reflexivity.
Qed.

Lemma StaticSite_viewer_trigger (props : StaticSite.Props) :
  trigger LambdaEdgeEventType.VIEWER_REQUEST (defaultBehavior (StaticSite.distribution props))
  = Some StaticSite.viewerRequestLambda.
Proof. reflexivity. Qed.

(** X7. As the comment on the cache policy says, the origin-request
    function runs only when the cache is not hit: unless a request is
    served from the origin side, what the distribution answers and what
    the cache holds afterwards are the same whatever the origin and the
    origin-request function are; and a request is served from the origin
    side only when its method is not a cached one or the cache has no
    entry under its key. *)
Theorem origin_side_is_consulted_only_on_a_miss
    (code1 code2 : NodejsFunctionProps -> Handler) (origin1 origin2 : Request -> Response)
    (props : StaticSite.Props) (c : Cache) (r : Request) :
  code1 StaticSite.viewerRequestLambda = code2 StaticSite.viewerRequestLambda ->
  (serve offers code1 origin1 (StaticSite.distribution props) c r
     = serve offers code2 origin2 (StaticSite.distribution props) c r
   \/ exists sent dl,
        (serve offers code1 origin1 (StaticSite.distribution props) c r).1
          = FromOrigin sent dl)
  /\ (forall sent dl,
        (serve offers code1 origin1 (StaticSite.distribution props) c r).1
          = FromOrigin sent dl ->
        method r = OPTIONS
        \/ exists r',
             viewerRequestStage code1 (defaultBehavior (StaticSite.distribution props)) r
               = inl r'
             /\ cacheLookup c
                  (cacheKey offers
                     (policyOf (defaultBehavior (StaticSite.distribution props))) r')
                = None).
Proof.
  intros Hcode. split.
  - apply serve_outcome_without_origin.
    unfold viewerRequestStage. rewrite StaticSite_viewer_trigger, Hcode. reflexivity.
  - intros sent dl. unfold serve.
    destruct (method r) eqn:Hm; cbn [dispatch]; try discriminate;
      try (intros _; left; reflexivity).
    + change (dispatch (defaultBehavior (StaticSite.distribution props)) GET)
        with ThroughCache. cbn iota.
      destruct (viewerRequestStage code1 (defaultBehavior (StaticSite.distribution props)) r)
        as [r' |]; [| discriminate].
      destruct (cacheLookup c _) eqn:Hc; [discriminate |].
      intros _. right. exists r'. auto.
    + change (dispatch (defaultBehavior (StaticSite.distribution props)) HEAD)
        with ThroughCache. cbn iota.
      destruct (viewerRequestStage code1 (defaultBehavior (StaticSite.distribution props)) r)
        as [r' |]; [| discriminate].
      destruct (cacheLookup c _) eqn:Hc; [discriminate |].
      intros _. right. exists r'. auto.
Qed.

(** X8. In the dynamic-rendering stack, once a GET or HEAD request has
    missed the cache, the answer of the origin side is stored under its
    key as it is, and the next request with the same method and the same
    key is answered with it from the cache, which stays as it is. *)
Theorem second_request_is_served_from_the_cache
    (code : NodejsFunctionProps -> Handler) (origin : Request -> Response)
    (props : StaticSite.Props) (c : Cache) (r r' r2 r2' : Request) :
  method r ∈ [GET; HEAD] ->
  viewerRequestStage code (defaultBehavior (StaticSite.distribution props)) r = inl r' ->
  cacheLookup c (cacheKey offers (policyOf (defaultBehavior (StaticSite.distribution props))) r')
    = None ->
  method r2 = method r ->
  viewerRequestStage code (defaultBehavior (StaticSite.distribution props)) r2 = inl r2' ->
  cacheKey offers (policyOf (defaultBehavior (StaticSite.distribution props))) r2'
    = cacheKey offers (policyOf (defaultBehavior (StaticSite.distribution props))) r' ->
  (serve offers code origin (StaticSite.distribution props) c r).2
    = cachePut (cacheKey offers (policyOf (defaultBehavior (StaticSite.distribution props))) r')
        (originRequestStage code origin (defaultBehavior (StaticSite.distribution props))
           (originFacing (policyOf (defaultBehavior (StaticSite.distribution props))) r'))
        c
  /\ serve offers code origin (StaticSite.distribution props)
       (serve offers code origin (StaticSite.distribution props) c r).2 r2
     = (CacheHit
          (cacheKey offers (policyOf (defaultBehavior (StaticSite.distribution props))) r')
          (originRequestStage code origin (defaultBehavior (StaticSite.distribution props))
             (originFacing (policyOf (defaultBehavior (StaticSite.distribution props))) r')),
        (serve offers code origin (StaticSite.distribution props) c r).2).
Proof.
  intros Hm Hv Hc Hm2 Hv2 Hk.
  assert ((serve offers code origin (StaticSite.distribution props) c r).2
    = cachePut (cacheKey offers (policyOf (defaultBehavior (StaticSite.distribution props))) r')
        (originRequestStage code origin (defaultBehavior (StaticSite.distribution props))
           (originFacing (policyOf (defaultBehavior (StaticSite.distribution props))) r'))
        c) as Hput.
  { rewrite (serve_on_miss code origin (StaticSite.distribution props) c r r');
      [reflexivity | | exact Hv | exact Hc].
    apply get_or_head_goes_through_cache; [reflexivity | reflexivity | exact Hm]. }
  split; [exact Hput |].
  rewrite Hput.
  rewrite (serve_on_hit code origin (StaticSite.distribution props) _ r2 r2'
             (originRequestStage code origin (defaultBehavior (StaticSite.distribution props))
                (originFacing (policyOf (defaultBehavior (StaticSite.distribution props))) r'))).
  - rewrite Hk. reflexivity.
  - rewrite Hm2.
    apply get_or_head_goes_through_cache; [reflexivity | reflexivity | exact Hm].
  - exact Hv2.
  - rewrite Hk. apply cacheLookup_cachePut_eq.
Qed.

End CacheLife.

(** ** Origin errors in the two stacks *)

Section OriginErrors.

Variable offers : ContentEncoding -> option string -> bool.
Variable code : NodejsFunctionProps -> Handler.
Variable origin : Request -> Response.
Variable gprops : GlobalStack.Props.
Variable fn : NodejsFunctionProps.

Local Abbreviation gdist := (GlobalStack.distribution gprops fn).
Local Abbreviation gpolicy := (policyOf (defaultBehavior (GlobalStack.distribution gprops fn))).

Lemma GlobalStack_customError_403 (resp : Response) :
  status resp = 403%Z ->
  customError (errorResponses gdist) origin resp
  = {| response :=
         match fetchPage origin "/error.html" with
         | Some page =>
             {| status := 403; contentType := contentType page; body := body page |}
         | None => resp
         end;
       errorCachingMinTtl := Some (Duration.minutes 30) |}.
Proof.
  intros H. unfold customError.
  cbn [errorResponses GlobalStack.distribution find httpStatus]. rewrite H.
  cbn [Z.eqb Pos.eqb responsePagePath ttl responseHttpStatus mbind option_bind].
  destruct (fetchPage origin "/error.html"); reflexivity.
Qed.

Lemma GlobalStack_customError_other (resp : Response) :
  status resp <> 403%Z ->
  customError (errorResponses gdist) origin resp
  = {| response := resp; errorCachingMinTtl := None |}.
Proof.
  intros H. unfold customError.
  cbn [errorResponses GlobalStack.distribution find httpStatus].
  destruct (Z.eqb_spec 403 (status resp)) as [E | _]; [congruence | reflexivity].
Qed.

(** X10. Only status 403 has a custom error response.  In [GlobalStack]
    an origin response with any other status is passed on as it is, with
    no error caching set; one with status 403 is passed on as it is too
    when [/error.html] cannot be fetched, the thirty minutes of error
    caching still applying.  The dynamic-rendering stack has no custom
    error response and passes every origin response on. *)
Theorem other_origin_responses_pass_through (props : StaticSite.Props) (resp : Response) :
  (status resp <> 403%Z ->
     customError (errorResponses gdist) origin resp
     = {| response := resp; errorCachingMinTtl := None |})
  /\ (status resp = 403%Z -> fetchPage origin "/error.html" = None ->
        customError (errorResponses gdist) origin resp
        = {| response := resp; errorCachingMinTtl := Some (Duration.minutes 30) |})
  /\ customError (errorResponses (StaticSite.distribution props)) origin resp
     = {| response := resp; errorCachingMinTtl := None |}.
Proof.
  split; [apply GlobalStack_customError_other |].
  split; [| reflexivity].
  intros H Hpage. rewrite (GlobalStack_customError_403 resp H), Hpage. reflexivity.
Qed.

(** X11. In [GlobalStack], when a GET or HEAD request misses the cache and
    the origin side answers 403, it is the error page with status 403
    that is stored under the request's key: the same request asked again
    is answered with the error page from the cache. *)
Theorem error_page_is_what_the_cache_keeps (c : Cache) (r : Request) (page : Response) :
  method r ∈ [GET; HEAD] ->
  cacheLookup c (cacheKey offers gpolicy r) = None ->
  status (originRequestStage code origin (defaultBehavior gdist) (originFacing gpolicy r))
    = 403%Z ->
  fetchPage origin "/error.html" = Some page ->
  serve offers code origin gdist (serve offers code origin gdist c r).2 r
  = (CacheHit (cacheKey offers gpolicy r)
       {| status := 403; contentType := contentType page; body := body page |},
     (serve offers code origin gdist c r).2).
Proof.
  intros Hm Hc H403 Hpage.
  assert (dispatch (defaultBehavior gdist) (method r) = ThroughCache) as Hd
    by (apply get_or_head_goes_through_cache; [reflexivity | reflexivity | exact Hm]).
  assert (viewerRequestStage code (defaultBehavior gdist) r = inl r) as Hv by reflexivity.
  rewrite (serve_on_miss offers code origin gdist c r r Hd Hv Hc). cbn [snd].
  rewrite (GlobalStack_customError_403 _ H403), Hpage. cbn [response].
  apply (serve_on_hit offers code origin gdist _ r r); [exact Hd | exact Hv |].
  apply cacheLookup_cachePut_eq.
Qed.

End OriginErrors.

(** ** The invalidation after a deployment *)

Section Invalidation.

Variable offers : ContentEncoding -> option string -> bool.
Variable code : NodejsFunctionProps -> Handler.
Variable origin : Request -> Response.
Variable props : StaticSite.Props.

Lemma cacheLookup_invalidate (paths : list string) (c : Cache) (k : CacheKey) :
  cacheLookup (invalidate paths c) k
  = if existsb (fun p => invalidationCovers p (keyPath k)) paths
    then None else cacheLookup c k.
Proof.
  unfold cacheLookup, invalidate.
  induction c as [| [k' resp] c IH].
  - cbn. destruct (existsb _ paths); reflexivity.
  - cbn [List.filter fst].
    destruct (existsb (fun p => invalidationCovers p (keyPath k')) paths) eqn:Hcov';
      cbn [negb].
    + rewrite IH. cbn [find fst].
      destruct (bool_decide_reflect (k' = k)) as [-> | Hne]; [| reflexivity].
      rewrite Hcov'. reflexivity.
    + cbn [find fst].
      destruct (bool_decide_reflect (k' = k)) as [-> | Hne].
      * rewrite Hcov'. reflexivity.
      * exact IH.
Qed.

(** X12. The deployment of the site's files invalidates [/*], which
    covers every path that begins with a slash: after it the cache holds
    no entry for any such path, whatever the rest of the key, so the next
    request for it is not answered from the cache. *)
Theorem deployment_invalidates_every_path (c : Cache) (r r' : Request) :
  viewerRequestStage code (defaultBehavior (StaticSite.distribution props)) r = inl r' ->
  String.prefix "/" (uri r') = true ->
  (forall k, String.prefix "/" (keyPath k) = true ->
     cacheLookup (invalidate (distributionPaths DeployWithInvalidation) c) k = None)
  /\ (forall k hit,
        (serve offers code origin (StaticSite.distribution props)
           (invalidate (distributionPaths DeployWithInvalidation) c) r).1
        <> CacheHit k hit).
Proof.
  intros Hv Hslash.
  assert (forall k, String.prefix "/" (keyPath k) = true ->
            cacheLookup (invalidate (distributionPaths DeployWithInvalidation) c) k = None)
    as Hgone.
  { intros k Hk. rewrite cacheLookup_invalidate.
    cbn [distributionPaths DeployWithInvalidation existsb].
    change (invalidationCovers "/*" (keyPath k)) with (String.prefix "/" (keyPath k)).
    rewrite Hk. reflexivity. }
  split; [exact Hgone |].
  intros k hit Hhit.
  apply serve_hit in Hhit as (r'' & Hv' & -> & Hlook).
  rewrite Hv in Hv'. injection Hv' as <-.
  rewrite Hgone in Hlook; [discriminate Hlook | exact Hslash].
Qed.

End Invalidation.

(** ** The constructor of [GlobalStack] *)

(** X13. The constructor of [GlobalStack] cannot return when
    [../front-app/dist/index.html] cannot be read.  Whenever it returns, the
    function it bundles defines [__SITE_ROOT_INDEX_HTML_CONTENT] as the
    JSON text of what that file held and defines no other identifier, and
    that function is the origin-request function of the distribution,
    which has no viewer-request function. *)
Theorem GlobalStack_new_needs_the_index_file
    (fs : GlobalStack.FileSystem) (gprops : GlobalStack.Props) :
  (GlobalStack.readFileSync fs GlobalStack.indexHtmlPath = None ->
     GlobalStack.new fs gprops = None)
  /\ forall stack, GlobalStack.new fs gprops = Some stack ->
       (exists content,
          GlobalStack.readFileSync fs GlobalStack.indexHtmlPath = Some content
          /\ definedText (GlobalStack.fn stack) GlobalStack.SITE_ROOT_INDEX_HTML_CONTENT
             = Some (JSON_stringify content))
       /\ (forall name, name <> GlobalStack.SITE_ROOT_INDEX_HTML_CONTENT ->
             definedText (GlobalStack.fn stack) name = None)
       /\ trigger LambdaEdgeEventType.ORIGIN_REQUEST (defaultBehavior (GlobalStack.dist stack))
          = Some (GlobalStack.fn stack)
       /\ trigger LambdaEdgeEventType.VIEWER_REQUEST (defaultBehavior (GlobalStack.dist stack))
          = None.
Proof.
  unfold GlobalStack.new, GlobalStack.originRequestFunction.
  destruct (GlobalStack.readFileSync fs GlobalStack.indexHtmlPath) as [content |];
    cbn [mbind option_bind].
  - split; [discriminate |].
    intros stack [= <-]. cbn [GlobalStack.fn GlobalStack.dist].
    split; [exists content; split; [reflexivity |] |].
    + unfold definedText. cbn [bundling mbind option_bind define].
      apply lookup_singleton_eq.
    + split; [| split; reflexivity].
      intros name Hne. unfold definedText. cbn [bundling mbind option_bind define].
      apply lookup_singleton_ne. congruence.
  - split; [reflexivity |]. intros stack H. discriminate H.
Qed.

(** ** Instances of the further properties *)

(** X7, witness: a browser's request that hits the cache is answered the
    same with the origin down. *)
Lemma origin_side_is_consulted_only_on_a_miss_witness :
  exampleClassifier StaticSite.viewerRequestLambda
    = exampleClassifier StaticSite.viewerRequestLambda
  /\ (serve noEncoding exampleClassifier exampleOrigin
        (StaticSite.distribution exampleProps) exampleCache browserRequest
      = serve noEncoding exampleClassifier failingOrigin
          (StaticSite.distribution exampleProps) exampleCache browserRequest
      \/ exists sent dl,
           (serve noEncoding exampleClassifier exampleOrigin
              (StaticSite.distribution exampleProps) exampleCache browserRequest).1
           = FromOrigin sent dl).
Proof.
  split; [reflexivity |].
  apply (origin_side_is_consulted_only_on_a_miss noEncoding exampleClassifier
           exampleClassifier exampleOrigin failingOrigin exampleProps exampleCache
           browserRequest eq_refl).
Defined.

(** X8, witness: a crawler's GET misses, and another crawler's GET for
    the same path, with a query string and a cookie, is then a hit. *)
Lemma second_request_is_served_from_the_cache_witness :
  cacheKey noEncoding (policyOf (defaultBehavior (StaticSite.distribution exampleProps)))
    (setHeader x_need_dynamic_render "true" otherBotRequest)
  = cacheKey noEncoding (policyOf (defaultBehavior (StaticSite.distribution exampleProps)))
      (setHeader x_need_dynamic_render "true" botRequest)
  /\ serve noEncoding exampleClassifier exampleOrigin (StaticSite.distribution exampleProps)
       (serve noEncoding exampleClassifier exampleOrigin
          (StaticSite.distribution exampleProps) exampleCache botRequest).2
       otherBotRequest
     = (CacheHit
          (cacheKey noEncoding
             (policyOf (defaultBehavior (StaticSite.distribution exampleProps)))
             (setHeader x_need_dynamic_render "true" botRequest))
          (originRequestStage exampleClassifier exampleOrigin
             (defaultBehavior (StaticSite.distribution exampleProps))
             (originFacing
                (policyOf (defaultBehavior (StaticSite.distribution exampleProps)))
                (setHeader x_need_dynamic_render "true" botRequest))),
        (serve noEncoding exampleClassifier exampleOrigin
           (StaticSite.distribution exampleProps) exampleCache botRequest).2).
Proof.
  split; [reflexivity |].
  apply (second_request_is_served_from_the_cache noEncoding exampleClassifier exampleOrigin
           exampleProps exampleCache botRequest
           (setHeader x_need_dynamic_render "true" botRequest)
           otherBotRequest
           (setHeader x_need_dynamic_render "true" otherBotRequest)).
  - apply list_elem_of_here.
  - reflexivity.
  - reflexivity.
  - reflexivity.
  - reflexivity.
  - reflexivity.
Defined.

(** X11, witness: a path the bucket refuses, asked for twice. *)
Lemma error_page_is_what_the_cache_keeps_witness :
  fetchPage exampleOrigin "/error.html"
    = Some {| status := 200; contentType := "text/html"; body := units "<h1>forbidden</h1>" |}
  /\ (serve noEncoding passThrough exampleOrigin
        (GlobalStack.distribution exampleGlobalProps exampleBundled)
        (serve noEncoding passThrough exampleOrigin
           (GlobalStack.distribution exampleGlobalProps exampleBundled) [] browserRequest).2
        browserRequest).1
     = CacheHit
         (cacheKey noEncoding
            (policyOf (defaultBehavior
                         (GlobalStack.distribution exampleGlobalProps exampleBundled)))
            browserRequest)
         {| status := 403; contentType := "text/html"; body := units "<h1>forbidden</h1>" |}.
Proof.
  split; [reflexivity |].
  rewrite (error_page_is_what_the_cache_keeps noEncoding passThrough exampleOrigin
             exampleGlobalProps exampleBundled [] browserRequest
             {| status := 200; contentType := "text/html";
                body := units "<h1>forbidden</h1>" |}).
  - reflexivity.
  - apply list_elem_of_here.
  - reflexivity.
  - reflexivity.
  - reflexivity.
Defined.

(** X12, witness: the browser's entry is gone after the deployment. *)
Lemma deployment_invalidates_every_path_witness :
  cacheLookup exampleCache browserKey = Some exampleResponse
  /\ String.prefix "/" (uri (setHeader x_need_dynamic_render "false" browserRequest)) = true
  /\ cacheLookup (invalidate (distributionPaths DeployWithInvalidation) exampleCache)
       browserKey = None.
Proof.
  split; [reflexivity |]. split; [reflexivity |].
  apply (proj1 (deployment_invalidates_every_path noEncoding exampleClassifier exampleOrigin
                  exampleProps exampleCache browserRequest
                  (setHeader x_need_dynamic_render "false" browserRequest)
                  eq_refl eq_refl)).
  reflexivity.
Defined.
